(** * vispy/visuals/line.py: LineVisual and its input components

    A shallow embedding of [LineVisual], [LinePosInputComponent] and
    [LineColorInputComponent].  Python objects that are shared and mutated
    ([Function] objects, the shader variables they bind) live in an object
    heap; a visual is a record threaded through a state-and-exception monad
    next to that heap. *)

From Stdlib Require Import ZArith QArith_base List String Bool Lia.
From stdpp Require Import base option gmap strings list fin_maps.

Local Open Scope string_scope.
Local Open Scope list_scope.
Local Open Scope nat_scope.

(** ** Python values that reach the visual *)

(** A Python number: [1] is an int, [0.0] a float. *)
Inductive scalar :=
  | SInt (z : Z)
  | SFloat (q : Q).

(** The exceptions the modelled statements can raise. *)
Inductive exn :=
  | TypeError
  | AttributeError
  | IndexError
  | ValueError
  | KeyError
  | OverflowError.

Module np.

(** [numpy.ndarray]: its [shape] and its elements in row-major order. *)
Record ndarray := { shape : list nat; elems : list scalar }.

Definition ndim (a : ndarray) : nat := length (shape a).

(** [shape[-1]]: an [IndexError] on the empty tuple. *)
Definition shape_last (s : list nat) : exn + nat :=
  match s with
  | [] => inl IndexError
  | _ :: _ => inr (List.last s 0)
  end.

(** [shape[:-1]] *)
Definition shape_init (s : list nat) : list nat := removelast s.

(** One entry [(name, np.float32, k)] of a structured dtype, with the array
    last assigned to the column ([None] after [np.empty]). *)
Record field := { f_name : string; f_sub : nat; f_src : option ndarray }.

(** A structured array: the shape given to [np.empty] and its columns. *)
Record recarray := { ra_shape : list nat; ra_fields : list field }.

Definition empty (s : list nat) (typ : list (string * nat)) : recarray :=
  {| ra_shape := s;
     ra_fields := map (fun '(n, k) => {| f_name := n; f_sub := k; f_src := None |}) typ |}.

Definition find_field (name : string) (d : recarray) : option field :=
  List.find (fun f => String.eqb (f_name f) name) (ra_fields d).

(** [name in d.dtype.fields] *)
Definition has_field (name : string) (d : recarray) : bool :=
  match find_field name d with Some _ => true | None => false end.

(** The shape of the view [d[name]].  numpy reads a field shape of [1] as
    the scalar type itself, every other [k] as a sub-array of length [k]. *)
Definition field_shape (s : list nat) (k : nat) : list nat :=
  if k =? 1 then s else s ++ [k].

Definition view_shape (d : recarray) (f : field) : list nat :=
  field_shape (ra_shape d) (f_sub f).

(** [d[name].shape] *)
Definition getitem_shape (d : recarray) (name : string) : exn + list nat :=
  match find_field name d with
  | Some f => inr (view_shape d f)
  | None => inl ValueError
  end.

(** Assignment broadcasts the source to the destination: surplus leading
    axes of the source must have length 1, and the remaining axes, aligned
    on the right, must agree or have length 1 in the source. *)
Fixpoint strip_ones (n : nat) (s : list nat) : option (list nat) :=
  match n, s with
  | O, _ => Some s
  | S n', 1 :: s' => strip_ones n' s'
  | S _, _ => None
  end.

Fixpoint axes_agree (src dst : list nat) : bool :=
  match src, dst with
  | [], _ => true
  | _ :: _, [] => false
  | a :: src', b :: dst' => ((a =? b) || (a =? 1)) && axes_agree src' dst'
  end.

Definition can_assign (src dst : list nat) : bool :=
  match strip_ones (length src - length dst) src with
  | Some src' => axes_agree (rev src') (rev dst)
  | None => false
  end.

Definition set_src (name : string) (a : ndarray) (f : field) : field :=
  if String.eqb (f_name f) name
  then {| f_name := f_name f; f_sub := f_sub f; f_src := Some a |}
  else f.

(** A Python int becomes a C double by rounding to 53 significant bits,
    ties to even. *)
Definition round53 (z : Z) : Z :=
  let m := Z.abs z in
  let n := (Z.log2 m + 1)%Z in
  if (n <=? 53)%Z then z
  else
    let sh := (n - 53)%Z in
    let q := Z.shiftr m sh in
    let r := (m - Z.shiftl q sh)%Z in
    let half := Z.shiftl 1 (sh - 1) in
    let q' := if (half <? r)%Z || ((r =? half)%Z && Z.odd q) then (q + 1)%Z else q in
    (Z.sgn z * Z.shiftl q' sh)%Z.

(** [float(s)] succeeds: an int whose rounded value reaches [2 ** 1024] is
    too large to convert to float and raises [OverflowError]. *)
Definition float_ok (s : scalar) : bool :=
  match s with
  | SInt z => (Z.abs (round53 z) <? 2 ^ 1024)%Z
  | SFloat _ => true
  end.

(** Every element of the array can be cast to [np.float32]: a float that is
    out of the range of [np.float32] becomes [inf], an int goes through
    [float]. *)
Definition castable (a : ndarray) : bool := forallb float_ok (elems a).

(** [d[name] = a], the columns being [np.float32]: the shapes are matched
    first, then the elements are cast. *)
Definition setitem (d : recarray) (name : string) (a : ndarray) : exn + recarray :=
  match find_field name d with
  | None => inl ValueError
  | Some f =>
      if can_assign (shape a) (view_shape d f)
      then
        if castable a
        then inr {| ra_shape := ra_shape d;
                    ra_fields := map (set_src name a) (ra_fields d) |}
        else inl OverflowError
      else inl ValueError
  end.

(** The element type [np.array] finds for a sequence of Python numbers: an
    int is [int64] if it fits, else [uint64] if it fits, else a Python
    object; a float is [float64]. *)
Inductive dtype := int64 | uint64 | float64 | object.

Definition dtype_of (s : scalar) : dtype :=
  match s with
  | SFloat _ => float64
  | SInt z =>
      if ((- 2 ^ 63 <=? z) && (z <? 2 ^ 63))%Z then int64
      else if ((0 <=? z) && (z <? 2 ^ 64))%Z then uint64
      else object
  end.

Definition promote (a b : dtype) : dtype :=
  match a, b with
  | object, _ | _, object => object
  | float64, _ | _, float64 => float64
  | int64, int64 => int64
  | uint64, uint64 => uint64
  | int64, uint64 | uint64, int64 => float64
  end.

(** The empty sequence gives the default, [float64]. *)
Definition common_dtype (xs : list scalar) : dtype :=
  match xs with
  | [] => float64
  | x :: xs' => fold_left (fun d y => promote d (dtype_of y)) xs' (dtype_of x)
  end.

Definition to_float64 (s : scalar) : scalar :=
  match s with
  | SInt z => SFloat (inject_Z (round53 z))
  | SFloat q => SFloat q
  end.

(** The elements as [np.array] stores them: converted to floats when the
    common type is [float64], kept as they are otherwise. *)
Definition coerce (xs : list scalar) : list scalar :=
  match common_dtype xs with
  | float64 => map to_float64 xs
  | _ => xs
  end.

End np.

(** What a caller hands to [set_data], following its docstring: a number, a
    tuple of numbers such as [(1, 1, 1, 1)], tuples or lists nested in one
    another such as [((1, 0, 0, 1), (0, 1, 0, 1))], or an array.  A nested
    sequence has rows of equal length, the docstring's [(N, 3-4)]; it is
    given by the lengths of its levels and its numbers in order, as they
    stand before [np.array] converts them.  Python's [None] is the [None]
    of [option pyval]. *)
Inductive pyval :=
  | PyNum (s : scalar)
  | PyTuple (xs : list scalar)
  | PyNested (a : np.ndarray)
  | PyArray (a : np.ndarray).

(** [len(v)] *)
Definition py_len (v : pyval) : exn + nat :=
  match v with
  | PyNum _ => inl TypeError
  | PyTuple xs => inr (length xs)
  | PyNested a | PyArray a =>
      match np.shape a with
      | [] => inl TypeError
      | n :: _ => inr n
      end
  end.

(** [np.array(v)] *)
Definition np_array (v : pyval) : np.ndarray :=
  match v with
  | PyNum s => {| np.shape := []; np.elems := np.coerce [s] |}
  | PyTuple xs => {| np.shape := [length xs]; np.elems := np.coerce xs |}
  | PyNested a => {| np.shape := np.shape a; np.elems := np.coerce (np.elems a) |}
  | PyArray a => a
  end.

Module gloo.

(** Modelled from the spec: gloo is not part of the sources.
    [gloo.VertexBuffer(data)] is a buffer object (told apart by [vb_id])
    holding the structured array it was built from. *)
Record VertexBuffer := { vb_id : nat; vb_data : np.recarray }.

End gloo.

(** Modelled from the spec: visuals/transforms is not part of the sources.
    Of the transform collaborator only [shader_map()] is used, and its result
    is only passed on to the program, so it is kept symbolic. *)
Inductive Transform :=
  | NullTransform
  | UserTransform (n : nat).

(** ** State and exceptions *)

Definition M (S A : Type) : Type := S -> (exn + A) * S.

Definition ret {S A} (a : A) : M S A := fun s => (inr a, s).

Definition raise {S A} (e : exn) : M S A := fun s => (inl e, s).

Definition bind {S A B} (m : M S A) (k : A -> M S B) : M S B :=
  fun s =>
    match m s with
    | (inr a, s') => k a s'
    | (inl e, s') => (inl e, s')
    end.

Definition gets {S A} (f : S -> A) : M S A := fun s => (inr (f s), s).

Definition modify {S} (f : S -> S) : M S unit := fun s => (inr tt, f s).

Definition lift {S A} (r : exn + A) : M S A :=
  match r with
  | inl e => raise e
  | inr a => ret a
  end.

Notation "x <- m ;; k" := (bind m (fun x => k))
  (at level 100, m at next level, right associativity).
Notation "m ;; k" := (bind m (fun _ => k))
  (at level 100, right associativity).

(** ** shaders/composite.py: Function and ModularProgram *)

Module composite.

(** The third component of a binding tuple, when there is one. *)
Inductive bvalue :=
  | NoValue
  | Number (s : scalar)
  | Array (a : np.ndarray)
  | BufferField (b : gloo.VertexBuffer) (name : string)
  | Buffer (b : option gloo.VertexBuffer).

(** A shader variable, as declared by a tuple such as
    [('attribute', 'vec2', value)]. *)
Record variable := { kind : string; gltype : string; value : bvalue }.

(** Modelled from the spec: shaders/composite.py is not part of the sources.
    A Function is a template with named slots; [bindings] maps a slot to
    the variable object bound to it. *)
Record Function := { code : string; bindings : gmap string nat }.

(** What a hook holds: a Function object, or the mapping a transform's
    [shader_map()] returned. *)
Inductive bound :=
  | BoundFunction (f : nat)
  | BoundMap (t : Transform).

(** Modelled from the spec: shaders/composite.py is not part of the sources.
    A program owns the two templates, the single-slot hooks and the chain
    hooks. *)
Record ModularProgram := {
  vert : string;
  frag : string;
  hooks : gmap string bound;
  chains : gmap string (list nat)
}.

(** A call whose order the specification speaks about.  [Draw] keeps the
    program as it stood when [draw] was called. *)
Inductive call :=
  | EventsUpdate
  | BuildVbo
  | PosUpdate
  | ColorUpdate
  | GlLineWidth (w : pyval)
  | Draw (primitive : string) (p : ModularProgram).

(** The object heap: Function and variable objects by identity, the next
    free identity, and the calls made so far. *)
Record world := {
  functions : gmap nat Function;
  variables : gmap nat variable;
  next_id : nat;
  trace : list call
}.

Definition alloc : M world nat :=
  fun w => (inr (next_id w),
            {| functions := functions w; variables := variables w;
               next_id := S (next_id w); trace := trace w |}).

Definition log (c : call) : M world unit :=
  modify (fun w => {| functions := functions w; variables := variables w;
                      next_id := next_id w; trace := trace w ++ [c] |}).

Definition store_function (r : nat) (f : Function) : M world unit :=
  modify (fun w => {| functions := <[r := f]> (functions w);
                      variables := variables w;
                      next_id := next_id w; trace := trace w |}).

Definition store_variable (r : nat) (x : variable) : M world unit :=
  modify (fun w => {| functions := functions w;
                      variables := <[r := x]> (variables w);
                      next_id := next_id w; trace := trace w |}).

(** Modelled from the spec: [Function(code)] is a new object with no slot
    bound. *)
Definition Function_new (src : string) : M world nat :=
  r <- alloc ;;
  store_function r {| code := src; bindings := ∅ |} ;;
  ret r.

(** The right-hand side of [func[slot] = ...]: a tuple that declares a new
    variable, or an existing variable object. *)
Inductive binding_arg :=
  | Tuple (k t : string) (v : bvalue)
  | Shared (x : nat).

Definition bind_slot (slot : string) (x : nat) (f : Function) : Function :=
  {| code := code f; bindings := <[slot := x]> (bindings f) |}.

(** Modelled from the spec: shaders/composite.py is not part of the sources.
    [func[slot] = arg] stores a binding and overwrites the slot's previous
    one; a tuple declares a new variable, a variable object is shared.  A
    reference always designates a live object, hence [alter]. *)
Definition Function_setitem (f : nat) (slot : string) (arg : binding_arg)
  : M world unit :=
  x <- match arg with
       | Tuple k t v =>
           r <- alloc ;;
           store_variable r {| kind := k; gltype := t; value := v |} ;;
           ret r
       | Shared x => ret x
       end ;;
  modify (fun w => {| functions := alter (bind_slot slot x) f (functions w);
                      variables := variables w;
                      next_id := next_id w; trace := trace w |}).

(** Modelled from the spec: shaders/composite.py is not part of the sources.
    [func[slot]] is the variable object bound to the slot. *)
Definition Function_getitem (f : nat) (slot : string) : M world nat :=
  fun w =>
    match functions w !! f with
    | Some fn =>
        match bindings fn !! slot with
        | Some x => (inr x, w)
        | None => (inl KeyError, w)
        end
    | None => (inl KeyError, w)
    end.

(** Modelled from the spec: [ModularProgram(vertex_shader, fragment_shader)]
    starts with no hook bound and no chain declared. *)
Definition ModularProgram_new (v f : string) : ModularProgram :=
  {| vert := v; frag := f; hooks := ∅; chains := ∅ |}.

(** Modelled from the spec: [add_chain(hook_name)] declares the hook as a
    chain. *)
Definition add_chain (name : string) (p : ModularProgram) : ModularProgram :=
  {| vert := vert p; frag := frag p; hooks := hooks p;
     chains := <[name := []]> (chains p) |}.

(** Modelled from the spec: [program[hook_name] = function] binds a
    single-slot hook and replaces its previous binding. *)
Definition setitem (name : string) (b : bound) (p : ModularProgram)
  : ModularProgram :=
  {| vert := vert p; frag := frag p; hooks := <[name := b]> (hooks p);
     chains := chains p |}.

(** Modelled from the spec: [add_callback(hook_name, function)] appends to
    a chain hook; the chain keeps attachment order. *)
Definition add_callback (name : string) (f : nat) (p : ModularProgram)
  : exn + ModularProgram :=
  match chains p !! name with
  | Some fs =>
      inr {| vert := vert p; frag := frag p; hooks := hooks p;
             chains := <[name := fs ++ [f]]> (chains p) |}
  | None => inl KeyError
  end.

(** Modelled from the spec: [program.draw(primitive)] draws with the
    bindings it finds.  The call is recorded with the program as it stands;
    compiling and the GPU are outside the model. *)
Definition draw (primitive : string) (p : ModularProgram) : M world unit :=
  log (Draw primitive p).

End composite.

(** ** visuals/line.py *)

Module line.
Import composite.

Definition vertex_shader : string := "
// local_position function must return the current vertex position
// in the Visual's local coordinate system.
vec4 local_position();

// mapping function that transforms from the Visual's local coordinate
// system to normalized device coordinates.
vec4 map_local_to_nd(vec4);

// generic hook for executing code after the vertex position has been set
void vert_post_hook();

void main(void) {
    vec4 local_pos = local_position();
    vec4 nd_pos = map_local_to_nd(local_pos);
    gl_Position = nd_pos;
    
    vert_post_hook();
}
".

Definition fragment_shader : string := "
// Must return the color for this fragment
// or discard.
vec4 frag_color();

// Generic hook for executing code after the fragment color has been set
// Functions in this hook may modify glFragColor or discard.
void frag_post_hook();

void main(void) {
    gl_FragColor = frag_color();
    
    frag_post_hook();
}
".

(** [self._opts] *)
Record options := {
  pos : option pyval;
  color : pyval;
  width : pyval;
  transform : option Transform
}.

(** A position component has no fields of its own: its two Functions are
    class attributes. *)
Inductive LinePosInputComponent := LinePosInputComponent_new.

Record LineColorInputComponent := { frag_func : nat; support_func : nat }.

(** [_data] is [None] until [_build_vbo] first assigns the attribute. *)
Record LineVisual := {
  _gl_options : option string;
  _opts : options;
  _program : ModularProgram;
  _pos_input_component : option LinePosInputComponent;
  _color_input_component : option LineColorInputComponent;
  _data : option np.recarray;
  _vbo : option gloo.VertexBuffer
}.

(** The heap of shared objects and the visual a method runs on. *)
Record state := { heap : world; self : LineVisual }.

Definition on_heap {A} (m : M world A) : M state A :=
  fun st => let (r, w) := m (heap st) in (r, {| heap := w; self := self st |}).

Definition update_self (f : LineVisual -> LineVisual) : M state unit :=
  modify (fun st => {| heap := heap st; self := f (self st) |}).

Definition set_opts (o : options) (v : LineVisual) : LineVisual :=
  {| _gl_options := _gl_options v; _opts := o; _program := _program v;
     _pos_input_component := _pos_input_component v;
     _color_input_component := _color_input_component v;
     _data := _data v; _vbo := _vbo v |}.

Definition set_program (p : ModularProgram) (v : LineVisual) : LineVisual :=
  {| _gl_options := _gl_options v; _opts := _opts v; _program := p;
     _pos_input_component := _pos_input_component v;
     _color_input_component := _color_input_component v;
     _data := _data v; _vbo := _vbo v |}.

Definition set__data (d : option np.recarray) (v : LineVisual) : LineVisual :=
  {| _gl_options := _gl_options v; _opts := _opts v; _program := _program v;
     _pos_input_component := _pos_input_component v;
     _color_input_component := _color_input_component v;
     _data := d; _vbo := _vbo v |}.

Definition set__vbo (b : option gloo.VertexBuffer) (v : LineVisual) : LineVisual :=
  {| _gl_options := _gl_options v; _opts := _opts v; _program := _program v;
     _pos_input_component := _pos_input_component v;
     _color_input_component := _color_input_component v;
     _data := _data v; _vbo := b |}.

Definition set_pos (p : pyval) (o : options) : options :=
  {| pos := Some p; color := color o; width := width o; transform := transform o |}.

Definition set_color (c : pyval) (o : options) : options :=
  {| pos := pos o; color := c; width := width o; transform := transform o |}.

Definition set_width (w : pyval) (o : options) : options :=
  {| pos := pos o; color := color o; width := w; transform := transform o |}.

Definition set_transform (t : option Transform) (o : options) : options :=
  {| pos := pos o; color := color o; width := width o; transform := t |}.

(** [self.events.update()], of the Visual base class: recorded as a call. *)
Definition events_update : M state unit := on_heap (log EventsUpdate).

(** [program[name] = b] on the visual's own program *)
Definition program_setitem (name : string) (b : bound) : M state unit :=
  update_self (fun v => set_program (setitem name b (_program v)) v).

(** [program.add_callback(name, f)] on the visual's own program *)
Definition program_add_callback (name : string) (f : nat) : M state unit :=
  v <- gets self ;;
  p <- lift (add_callback name f (_program v)) ;;
  update_self (set_program p).

(** The [transform] property. *)
Definition transform_setter (tr : option Transform) : M state unit :=
  update_self (fun v => set_opts (set_transform tr (_opts v)) v) ;;
  events_update.

Definition add_fragment_callback (func : nat) : M state unit :=
  program_add_callback "frag_post_hook" func ;;
  events_update.

Definition add_vertex_callback (func : nat) : M state unit :=
  program_add_callback "vert_post_hook" func ;;
  events_update.

Definition set_data (pos color width : option pyval) : M state unit :=
  match pos with
  | Some p => update_self (fun v => set_opts (set_pos p (_opts v)) v)
  | None => ret tt
  end ;;
  match color with
  | Some c => update_self (fun v => set_opts (set_color c (_opts v)) v)
  | None => ret tt
  end ;;
  match width with
  | Some w => update_self (fun v => set_opts (set_width w (_opts v)) v)
  | None => ret tt
  end ;;
  update_self (set__vbo None) ;;
  events_update.

(** [isinstance(color, np.ndarray) and color.ndim > 1] *)
Definition color_is_array (color : pyval) : bool :=
  match color with
  | PyArray c => 1 <? np.ndim c
  | _ => false
  end.

(** [v.shape]: only an array has the attribute. *)
Definition py_shape (v : option pyval) : exn + list nat :=
  match v with
  | Some (PyArray a) => inr (np.shape a)
  | _ => inl AttributeError
  end.

(** [self._data[name] = v] *)
Definition data_setitem (name : string) (v : pyval) : M state unit :=
  d <- gets (fun st => _data (self st)) ;;
  d' <- lift (match d with
              | Some d => np.setitem d name (np_array v)
              | None => inl AttributeError
              end) ;;
  update_self (set__data (Some d')).

(** The dtype entries carry [np.float32] throughout; it is left out of
    [typ], and [np.setitem] casts to it. *)
Definition _build_vbo : M state unit :=
  on_heap (log BuildVbo) ;;
  o <- gets (fun st => _opts (self st)) ;;
  shp <- lift (py_shape (pos o)) ;;
  k <- lift (np.shape_last shp) ;;
  typ <- (if color_is_array (color o)
          then cshp <- lift (py_shape (Some (color o))) ;;
               c <- lift (np.shape_last cshp) ;;
               ret [("pos", k); ("color", c)]
          else ret [("pos", k)]) ;;
  update_self (set__data (Some (np.empty (np.shape_init shp) typ))) ;;
  match pos o with
  | Some p => data_setitem "pos" p
  | None => raise AttributeError
  end ;;
  (if color_is_array (color o)
   then data_setitem "color" (color o)
   else ret tt) ;;
  d <- gets (fun st => _data (self st)) ;;
  match d with
  | Some d =>
      r <- on_heap alloc ;;
      update_self (set__vbo (Some {| gloo.vb_id := r; gloo.vb_data := d |}))
  | None => raise AttributeError
  end.

(** Modelled from the spec: [vbo[name]] is the named column of the buffer.
    [None] is not subscriptable. *)
Definition vbo_getitem (b : option gloo.VertexBuffer) (name : string)
  : exn + bvalue :=
  match b with
  | None => inl TypeError
  | Some b =>
      if np.has_field name (gloo.vb_data b)
      then inr (BufferField b name)
      else inl KeyError
  end.

(** The class attributes of [LinePosInputComponent]: two Function objects
    created once, when the module is imported. *)
Definition XYInputFunc : nat := 0.
Definition XYZInputFunc : nat := 1.

Definition XYInputFunc_code : string := "
        vec4 $input_xy_pos() {
            return vec4($xy_pos, $z_pos, 1.0);
        }
        ".

Definition XYZInputFunc_code : string := "
        vec4 $input_xyz_pos() {
            return vec4($xyz_pos, 1.0);
        }
        ".

(** The heap once the module is imported. *)
Definition imported : world :=
  {| functions :=
       <[XYZInputFunc := {| code := XYZInputFunc_code; bindings := ∅ |}]>
         (<[XYInputFunc := {| code := XYInputFunc_code; bindings := ∅ |}]> ∅);
     variables := ∅;
     next_id := 2;
     trace := [] |}.

(** [LinePosInputComponent.update] *)
Definition LinePosInputComponent_update (c : LinePosInputComponent)
  : M state unit :=
  on_heap (log PosUpdate) ;;
  v <- gets self ;;
  shp <- lift (match _data v with
               | Some d => np.getitem_shape d "pos"
               | None => inl AttributeError
               end) ;;
  k <- lift (np.shape_last shp) ;;
  func <- (if k =? 2
           then
             col <- lift (vbo_getitem (_vbo v) "pos") ;;
             on_heap (Function_setitem XYInputFunc "xy_pos"
                        (Tuple "attribute" "vec2" col)) ;;
             on_heap (Function_setitem XYInputFunc "z_pos"
                        (Tuple "uniform" "float" (Number (SFloat (Qmake 0 1))))) ;;
             ret XYInputFunc
           else
             on_heap (Function_setitem XYZInputFunc "xyz_pos"
                        (Tuple "attribute" "vec3" (Buffer (_vbo v)))) ;;
             ret XYZInputFunc) ;;
  program_setitem "local_position" (BoundFunction func).

Definition frag_func_code : string := "
            vec4 $colorInput() {
                return $rgba;
            }
            ".

Definition support_func_code : string := "
            void $colorInputSupport() {
                $output = $input;
            }
            ".

(** [LineColorInputComponent.__init__] *)
Definition LineColorInputComponent_init : M state LineColorInputComponent :=
  f <- on_heap (Function_new frag_func_code) ;;
  s <- on_heap (Function_new support_func_code) ;;
  ret {| frag_func := f; support_func := s |}.

(** [LineColorInputComponent.update] *)
Definition LineColorInputComponent_update (c : LineColorInputComponent)
  : M state unit :=
  on_heap (log ColorUpdate) ;;
  v <- gets self ;;
  has_color <- lift (match _data v with
                     | Some d => inr (np.has_field "color" d)
                     | None => inl AttributeError
                     end) ;;
  if has_color : bool
  then
    on_heap (Function_setitem (frag_func c) "rgba"
               (Tuple "varying" "vec4" NoValue)) ;;
    program_setitem "frag_color" (BoundFunction (frag_func c)) ;;
    program_add_callback "vert_post_hook" (support_func c) ;;
    col <- lift (vbo_getitem (_vbo v) "color") ;;
    on_heap (Function_setitem (support_func c) "input"
               (Tuple "attribute" "vec4" col)) ;;
    x <- on_heap (Function_getitem (frag_func c) "rgba") ;;
    on_heap (Function_setitem (support_func c) "output" (Shared x))
  else
    on_heap (Function_setitem (frag_func c) "rgba"
               (Tuple "uniform" "vec4" (Array (np_array (color (_opts v)))))) ;;
    program_setitem "frag_color" (BoundFunction (frag_func c)).

(** [self.pos_input_component.update()] and its colour twin: a missing
    component is [None], which has no [update]. *)
Definition pos_input_component_update : M state unit :=
  v <- gets self ;;
  match _pos_input_component v with
  | Some c => LinePosInputComponent_update c
  | None => raise AttributeError
  end.

Definition color_input_component_update : M state unit :=
  v <- gets self ;;
  match _color_input_component v with
  | Some c => LineColorInputComponent_update c
  | None => raise AttributeError
  end.

(** [self._opts['pos'] is None or len(self._opts['pos']) == 0] *)
Definition nothing_to_draw (p : option pyval) : exn + bool :=
  match p with
  | None => inr true
  | Some p =>
      match py_len p with
      | inl e => inl e
      | inr n => inr (n =? 0)
      end
  end.

(** [LineVisual.paint].  [super().paint()] belongs to the Visual base class
    and touches none of the fields below. *)
Definition paint : M state unit :=
  o <- gets (fun st => _opts (self st)) ;;
  stop <- lift (nothing_to_draw (pos o)) ;;
  if stop : bool then ret tt
  else
    b <- gets (fun st => _vbo (self st)) ;;
    match b with
    | None =>
        _build_vbo ;;
        pos_input_component_update ;;
        color_input_component_update
    | Some _ => ret tt
    end ;;
    o <- gets (fun st => _opts (self st)) ;;
    match transform o with
    | Some tr => program_setitem "map_local_to_nd" (BoundMap tr)
    | None => raise AttributeError
    end ;;
    on_heap (log (GlLineWidth (width o))) ;;
    p <- gets (fun st => _program (self st)) ;;
    on_heap (draw "LINE_STRIP" p).

(** A [LineVisual] object before [__init__] has run. *)
Definition blank : LineVisual :=
  {| _gl_options := None;
     _opts := {| pos := None; color := PyTuple []; width := PyTuple [];
                 transform := None |};
     _program := ModularProgram_new "" "";
     _pos_input_component := None;
     _color_input_component := None;
     _data := None;
     _vbo := None |}.

(** [LineVisual.__init__].  The two component properties are assigned while
    they still hold [None], so their setters only attach. *)
Definition __init__ (pos color width : option pyval) : M state unit :=
  update_self (fun v =>
    {| _gl_options := Some "translucent";
       _opts := {| line.pos := None;
                   line.color := PyTuple [SInt 1; SInt 1; SInt 1; SInt 1];
                   line.width := PyNum (SInt 1);
                   transform := None |};
       _program := ModularProgram_new vertex_shader fragment_shader;
       _pos_input_component := _pos_input_component v;
       _color_input_component := _color_input_component v;
       _data := _data v; _vbo := _vbo v |}) ;;
  transform_setter (Some NullTransform) ;;
  update_self (fun v => set_program (add_chain "vert_post_hook" (_program v)) v) ;;
  update_self (fun v => set_program (add_chain "frag_post_hook" (_program v)) v) ;;
  update_self (fun v =>
    {| _gl_options := _gl_options v; _opts := _opts v; _program := _program v;
       _pos_input_component := None;
       _color_input_component := None;
       _data := _data v; _vbo := _vbo v |}) ;;
  update_self (fun v =>
    {| _gl_options := _gl_options v; _opts := _opts v; _program := _program v;
       _pos_input_component := Some LinePosInputComponent_new;
       _color_input_component := _color_input_component v;
       _data := _data v; _vbo := _vbo v |}) ;;
  events_update ;;
  c <- LineColorInputComponent_init ;;
  update_self (fun v =>
    {| _gl_options := _gl_options v; _opts := _opts v; _program := _program v;
       _pos_input_component := _pos_input_component v;
       _color_input_component := Some c;
       _data := _data v; _vbo := _vbo v |}) ;;
  events_update ;;
  update_self (set__vbo None) ;;
  set_data pos color width.

(** [LineVisual(pos, color, width)] on a given heap. *)
Definition LineVisual_new (w : world) (pos color width : option pyval)
  : (exn + unit) * state :=
  __init__ pos color width {| heap := w; self := blank |}.

End line.

(** ** Vocabulary of the specification *)

Import composite line.

(** The variable object a Function's slot is bound to, and its declaration. *)
Definition slot_ref (w : world) (f : nat) (slot : string) : option nat :=
  match functions w !! f with
  | Some fn => bindings fn !! slot
  | None => None
  end.

Definition slot_variable (w : world) (f : nat) (slot : string) : option variable :=
  match slot_ref w f slot with
  | Some x => variables w !! x
  | None => None
  end.

(** The two states of the position component, read off the Function bound to
    [local_position]. *)
Inductive PosMode := Vec2Mode | Vec3Mode.

Definition pos_mode (v : LineVisual) : option PosMode :=
  match hooks (_program v) !! "local_position" with
  | Some (BoundFunction f) =>
      if f =? XYInputFunc then Some Vec2Mode
      else if f =? XYZInputFunc then Some Vec3Mode
      else None
  | _ => None
  end.

(** The two states of the colour component, read off the variable the
    fragment Function returns. *)
Inductive ColorMode := UniformColor | PerVertexColor.

Definition color_mode (st : state) (c : LineColorInputComponent) : option ColorMode :=
  match hooks (_program (self st)) !! "frag_color" with
  | Some (BoundFunction f) =>
      if f =? frag_func c then
        match slot_variable (heap st) f "rgba" with
        | Some x =>
            if String.eqb (kind x) "varying" then Some PerVertexColor
            else if String.eqb (kind x) "uniform" then Some UniformColor
            else None
        | None => None
        end
      else None
  | _ => None
  end.

(** Per-vertex colours as a caller supplies them, the [(N, 3-4)] array of
    [set_data]'s docstring as opposed to a single tuple of components: a row
    of components for each vertex, be it an ndarray or tuples or lists
    nested in one another (the docstring calls the default colour, a tuple,
    an array as well).  Read off the shape [np.array] gives the value. *)
Definition per_vertex_color_array (c : pyval) : Prop :=
  2 <= np.ndim (np_array c).

(** The buffer a bound value reads, if it reads one. *)
Definition buffer_of (v : bvalue) : option gloo.VertexBuffer :=
  match v with
  | BufferField b _ => Some b
  | Buffer b => b
  | _ => None
  end.

(** The Function objects a program draws with: those bound to its hooks
    and those on its chains. *)
Definition on_program (p : ModularProgram) (f : nat) : Prop :=
  (exists name, hooks p !! name = Some (BoundFunction f)) \/
  (exists name fs, chains p !! name = Some fs /\ f ∈ fs).

(** A draw with program [p] uses buffer [b] and no other: whatever buffer a
    variable bound to a slot of one of the program's Functions reads, it is
    [b]. *)
Definition draws_from (w : world) (p : ModularProgram) (b : gloo.VertexBuffer) : Prop :=
  forall f slot x b',
    on_program p f -> slot_variable w f slot = Some x ->
    buffer_of (value x) = Some b' -> b' = b.

(** The structured array [_build_vbo] derives from the options: one row per
    vertex, a [pos] column filled from the position array and, for a colour
    array, a [color] column filled from it. *)
Definition data_of (o : options) (d : np.recarray) : Prop :=
  exists a,
    pos o = Some (PyArray a) /\
    np.ra_shape d = np.shape_init (np.shape a) /\
    np.ra_fields d =
      {| np.f_name := "pos"; np.f_sub := List.last (np.shape a) 0;
         np.f_src := Some a |} ::
      (if color_is_array (color o)
       then [{| np.f_name := "color";
                np.f_sub := List.last (np.shape (np_array (color o))) 0;
                np.f_src := Some (np_array (color o)) |}]
       else []).

(** The invariant of the derived buffer: a buffer that is present was built
    from the options as they stand. *)
Definition consistent (st : state) : Prop :=
  forall b, _vbo (self st) = Some b -> data_of (_opts (self st)) (gloo.vb_data b).

(** The states a visual can be in: constructed on some heap, then driven
    through its methods, while other objects may change the shared heap. *)
Inductive reachable : state -> Prop :=
  | reach_new w p c wd r st :
      LineVisual_new w p c wd = (r, st) -> reachable st
  | reach_set_data st p c wd r st' :
      reachable st -> set_data p c wd st = (r, st') -> reachable st'
  | reach_paint st r st' :
      reachable st -> paint st = (r, st') -> reachable st'
  | reach_transform st tr r st' :
      reachable st -> transform_setter tr st = (r, st') -> reachable st'
  | reach_vertex_callback st f r st' :
      reachable st -> add_vertex_callback f st = (r, st') -> reachable st'
  | reach_fragment_callback st f r st' :
      reachable st -> add_fragment_callback f st = (r, st') -> reachable st'
  | reach_heap st w :
      reachable st -> reachable {| heap := w; self := self st |}.

(** The colour array, if there is one, broadcasts onto the vertices. *)
Definition color_fits (o : options) : bool :=
  match pos o, color o with
  | Some (PyArray a), PyArray c =>
      if 1 <? np.ndim c
      then np.can_assign (np.shape c)
             (np.field_shape (np.shape_init (np.shape a)) (List.last (np.shape c) 0))
      else true
  | _, _ => true
  end.

(** Every number of the position array, and of the colour array if there is
    one, converts to [np.float32]: none is an int too large for a float. *)
Definition numbers_fit (o : options) : bool :=
  match pos o with
  | Some (PyArray a) => np.castable a
  | _ => true
  end &&
  match color o with
  | PyArray c => if 1 <? np.ndim c then np.castable c else true
  | _ => true
  end.

(** Nothing of a per-vertex mode is left on the [vert_post_hook] chain:
    the support function is not in it and no function in it binds a
    varying. *)
Definition residue_free (st : state) (c : LineColorInputComponent) : Prop :=
  forall fs, chains (_program (self st)) !! "vert_post_hook" = Some fs ->
    (support_func c ∉ fs) /\
    forall f slot x, f ∈ fs -> slot_variable (heap st) f slot = Some x ->
                     kind x <> "varying".

(** The calls a run added to the trace. *)
Definition added (st st' : state) (cs : list call) : Prop :=
  trace (heap st') = trace (heap st) ++ cs.

Definition is_draw (c : call) : bool :=
  match c with
  | Draw _ _ => true
  | _ => false
  end.

(** A run of calls without a draw. *)
Definition no_draw (cs : list call) : Prop :=
  forallb (fun c => negb (is_draw c)) cs = true.

(** The attribute read by the Function bound to a visual's
    [local_position] hook. *)
Definition local_position_attribute (w : world) (v : LineVisual) : option variable :=
  match hooks (_program v) !! "local_position" with
  | Some (BoundFunction f) =>
      slot_variable w f (if f =? XYInputFunc then "xy_pos" else "xyz_pos")
  | _ => None
  end.

(** ** Sample inputs *)

Definition ints (zs : list Z) : list scalar := map SInt zs.

(** [[[0,0],[1,1],[2,0]]], [[[0,0,0],[1,1,1]]] and a 3 by 4 array. *)
Definition pos_3x2 : np.ndarray :=
  {| np.shape := [3; 2]; np.elems := ints [0; 0; 1; 1; 2; 0]%Z |}.

Definition pos_2x3 : np.ndarray :=
  {| np.shape := [2; 3]; np.elems := ints [0; 0; 0; 1; 1; 1]%Z |}.

Definition pos_3x4 : np.ndarray :=
  {| np.shape := [3; 4]; np.elems := ints [0; 0; 0; 1; 1; 1; 0; 1; 2; 0; 0; 1]%Z |}.

(** [(1, 0, 0, 1)], [(1, 0, 0)] and one colour per vertex. *)
Definition red : pyval := PyTuple (ints [1; 0; 0; 1]%Z).

Definition red_rgb : pyval := PyTuple (ints [1; 0; 0]%Z).

Definition colors_3x4 : np.ndarray :=
  {| np.shape := [3; 4]; np.elems := ints [1; 0; 0; 1; 0; 1; 0; 1; 0; 0; 1; 1]%Z |}.

Definition colors_2x4 : np.ndarray :=
  {| np.shape := [2; 4]; np.elems := ints [1; 0; 0; 1; 0; 1; 0; 1]%Z |}.

(** The state a method leaves behind, whatever its outcome. *)
Definition after {A} (m : M state A) (st : state) : state := snd (m st).

(** [LineVisual(pos, color, width)] right after the module is imported. *)
Definition fresh_visual (p c w : option pyval) : state :=
  snd (LineVisual_new imported p c w).

(** A second visual, constructed on the heap the first one lives in. *)
Definition second_visual (st : state) (p c w : option pyval) : state :=
  snd (LineVisual_new (heap st) p c w).

Definition pos_2x2 : np.ndarray :=
  {| np.shape := [2; 2]; np.elems := ints [5; 5; 6; 6]%Z |}.

(** Visual A has painted once; visual B, created afterwards, has built its
    buffer [buffer_b]. *)
Definition visual_a : state :=
  after paint (fresh_visual (Some (PyArray pos_3x2)) None None).

Definition visual_b : state :=
  after _build_vbo (second_visual visual_a (Some (PyArray pos_2x2)) (Some red) None).

(** Visual D, created after visual A has painted, is on 3-D positions and
    has built its buffer. *)
Definition visual_d : state :=
  after _build_vbo (second_visual visual_a (Some (PyArray pos_2x3)) None None).

Definition data_b : np.recarray :=
  {| np.ra_shape := [2];
     np.ra_fields := [{| np.f_name := "pos"; np.f_sub := 2;
                         np.f_src := Some pos_2x2 |}] |}.

Definition buffer_b : gloo.VertexBuffer :=
  {| gloo.vb_id := 10; gloo.vb_data := data_b |}.

(** The colour component of the first visual created after import: its two
    Functions are the first two objects allocated. *)
Definition first_component : LineColorInputComponent :=
  {| frag_func := 2; support_func := 3 |}.

(** A visual with one colour per vertex, painted, then given a fixed colour
    and painted again. *)
Definition per_vertex_visual : state :=
  fresh_visual (Some (PyArray pos_3x2)) (Some (PyArray colors_3x4)) None.

Definition recolored_visual : state :=
  after paint (after (set_data None (Some red) None) (after paint per_vertex_visual)).

(** What [_build_vbo] derives for [per_vertex_visual]. *)
Definition data_c : np.recarray :=
  {| np.ra_shape := [3];
     np.ra_fields := [{| np.f_name := "pos"; np.f_sub := 2;
                         np.f_src := Some pos_3x2 |};
                      {| np.f_name := "color"; np.f_sub := 4;
                         np.f_src := Some colors_3x4 |}] |}.

Definition buffer_c : gloo.VertexBuffer :=
  {| gloo.vb_id := 4; gloo.vb_data := data_c |}.

(** [((1,0,0,1), (0,1,0,1), (0,0,1,1))]: one colour per vertex, as nested
    tuples. *)
Definition nested_colors : pyval := PyNested colors_3x4.

Definition nested_visual : state :=
  fresh_visual (Some (PyArray pos_3x2)) (Some nested_colors) None.

(** [[[1, 0, 0, 1]]]: one colour, as an array of shape (1, 4). *)
Definition colors_1x4 : np.ndarray :=
  {| np.shape := [1; 4]; np.elems := ints [1; 0; 0; 1]%Z |}.

(** [np.array([[10**400, 0], [1, 1]], dtype=object)] *)
Definition pos_huge : np.ndarray :=
  {| np.shape := [2; 2]; np.elems := ints [10 ^ 400; 0; 1; 1]%Z |}.

(** A visual whose colour is the three-component tuple [(1, 0, 0)]. *)
Definition rgb_visual : state :=
  fresh_visual (Some (PyArray pos_3x2)) (Some red_rgb) None.

(** What [_build_vbo] derives for a visual on [pos_3x2] with a fixed colour. *)
Definition data_u : np.recarray :=
  {| np.ra_shape := [3];
     np.ra_fields := [{| np.f_name := "pos"; np.f_sub := 2;
                         np.f_src := Some pos_3x2 |}] |}.

(** [LineVisual(pos=[[0,0],[1,1],[2,0]], color=(1,0,0,1), width=2)] *)
Definition red_line : state :=
  fresh_visual (Some (PyArray pos_3x2)) (Some red) (Some (PyNum (SInt 2))).

(** [LineVisual(pos=[[0,0,0],[1,1,1]], color=[[1,0,0,1],[0,1,0,1]])], both
    given as arrays. *)
Definition two_colored_line : state :=
  fresh_visual (Some (PyArray pos_2x3)) (Some (PyArray colors_2x4)) None.

(** The varying variables that exist in a heap. *)
Definition varyings (w : world) : list (nat * variable) :=
  List.filter (fun '(_, x) => String.eqb (kind x) "varying")
    (map_to_list (variables w)).

(** [later], unless it is [None]; then [earlier]. *)
Definition or_else {A} (later earlier : option A) : option A :=
  match later with
  | Some x => Some x
  | None => earlier
  end.

(** A method run [k] times in a row, up to the first exception. *)
Fixpoint times (k : nat) (m : M state unit) : M state unit :=
  match k with
  | O => ret tt
  | S k' => m ;; times k' m
  end.

(** The default colour and width of [LineVisual.__init__]. *)
Definition white : pyval := PyTuple [SInt 1; SInt 1; SInt 1; SInt 1].

Definition one : pyval := PyNum (SInt 1).

(** The state after the position component's, or a colour component's,
    [update], whatever its outcome. *)
Definition pos_updated (st : state) : state :=
  after (LinePosInputComponent_update LinePosInputComponent_new) st.

Definition color_updated (c : LineColorInputComponent) (st : state) : state :=
  after (LineColorInputComponent_update c) st.

(** ** Running the monad *)

Create HintDb run discriminated.

#[local] Hint Unfold bind ret raise gets modify lift on_heap update_self
  events_update program_setitem program_add_callback log alloc
  store_function store_variable Function_new Function_setitem
  Function_getitem draw data_setitem : run.

Ltac run := repeat (autounfold with run; cbn).

Ltac split_inner :=
  match goal with
  | |- context [match ?x with _ => _ end] =>
      lazymatch x with
      | context [match _ with _ => _ end] => fail
      | _ => destruct x eqn:?
      end
  end.

Ltac frame :=
  repeat match goal with
         | |- _ /\ _ => split; [first [reflexivity | assumption | congruence] |]
         end.

Lemma bind_ok {S A B} (m : M S A) (k : A -> M S B) s a s1 :
  m s = (inr a, s1) -> bind m k s = k a s1.
Proof. intros E. unfold bind. now rewrite E. Qed.

Lemma bind_raise {S A B} (m : M S A) (k : A -> M S B) s e s1 :
  m s = (inl e, s1) -> bind m k s = (inl e, s1).
Proof. intros E. unfold bind. now rewrite E. Qed.

Lemma bind_inv {S A B} (m : M S A) (k : A -> M S B) s r s' :
  bind m k s = (r, s') ->
  (exists a s1, m s = (inr a, s1) /\ k a s1 = (r, s')) \/
  (exists e, m s = (inl e, s') /\ r = inl e).
Proof.
  unfold bind. destruct (m s) as [[e | a] s1]; intros E.
  - right. exists e. now inversion E.
  - left. now exists a, s1.
Qed.

(** ** set_data *)

(** C6: [set_data(pos, color, width)] keeps the stored option for every
    argument that is [None], overwrites it for every other argument, and
    leaves [_vbo] at [None] whatever the arguments; it raises nothing and
    touches neither the transform nor the program. *)
Theorem set_data_partial_update (st : state) (p c w : option pyval) :
  exists st',
    set_data p c w st = (inr tt, st') /\
    pos (_opts (self st')) =
      match p with Some x => Some x | None => pos (_opts (self st)) end /\
    color (_opts (self st')) =
      match c with Some x => x | None => color (_opts (self st)) end /\
    width (_opts (self st')) =
      match w with Some x => x | None => width (_opts (self st)) end /\
    transform (_opts (self st')) = transform (_opts (self st)) /\
    _program (self st') = _program (self st) /\
    _vbo (self st') = None.
Proof.
  destruct p, c, w; eexists; (split; [reflexivity |]); cbn; repeat split.
Qed.

(** ** numpy shapes *)

Lemma axes_agree_refl (s : list nat) : np.axes_agree s s = true.
Proof.
  induction s as [| a s IH]; cbn; [reflexivity |].
  now rewrite Nat.eqb_refl, IH.
Qed.

Lemma can_assign_refl (s : list nat) : np.can_assign s s = true.
Proof.
  unfold np.can_assign. rewrite Nat.sub_diag. cbn. apply axes_agree_refl.
Qed.

Lemma shape_last_inr (s : list nat) (d : nat) :
  np.shape_last s = inr d -> s <> [] /\ List.last s 0 = d.
Proof.
  destruct s; cbn; intros E; [discriminate |].
  split; [discriminate | congruence].
Qed.

Lemma field_shape_whole (s : list nat) (d : nat) :
  np.shape_last s = inr d -> d <> 1 ->
  np.field_shape (np.shape_init s) d = s.
Proof.
  intros E Hd. apply shape_last_inr in E as [Hs <-].
  unfold np.field_shape, np.shape_init.
  destruct (Nat.eqb_spec (List.last s 0) 1) as [E1 | _]; [contradiction |].
  symmetry. now apply app_removelast_last.
Qed.

(** ** _build_vbo *)

#[local] Arguments np.shape_last : simpl never.
#[local] Arguments np.shape_init : simpl never.
#[local] Arguments np.can_assign : simpl never.
#[local] Arguments np.field_shape : simpl never.
#[local] Arguments np.setitem : simpl never.
#[local] Arguments np.empty : simpl never.
#[local] Arguments color_is_array : simpl never.

Lemma setitem_pos (s : list nat) (k : nat) (a : np.ndarray) :
  np.setitem (np.empty s [("pos", k)]) "pos" a =
  if np.can_assign (np.shape a) (np.field_shape s k)
  then
    if np.castable a
    then inr {| np.ra_shape := s;
                  np.ra_fields :=
                    [{| np.f_name := "pos"; np.f_sub := k; np.f_src := Some a |}] |}
    else inl OverflowError
  else inl ValueError.
Proof. reflexivity. Qed.

Lemma setitem_pos_color (s : list nat) (k c : nat) (a : np.ndarray) :
  np.setitem (np.empty s [("pos", k); ("color", c)]) "pos" a =
  if np.can_assign (np.shape a) (np.field_shape s k)
  then
    if np.castable a
    then inr {| np.ra_shape := s;
                  np.ra_fields :=
                    [{| np.f_name := "pos"; np.f_sub := k; np.f_src := Some a |};
                     {| np.f_name := "color"; np.f_sub := c; np.f_src := None |}] |}
    else inl OverflowError
  else inl ValueError.
Proof. reflexivity. Qed.

Lemma setitem_color (s : list nat) (k c : nat) (p : option np.ndarray) (a : np.ndarray) :
  np.setitem {| np.ra_shape := s;
                np.ra_fields :=
                  [{| np.f_name := "pos"; np.f_sub := k; np.f_src := p |};
                   {| np.f_name := "color"; np.f_sub := c; np.f_src := None |}] |}
    "color" a =
  if np.can_assign (np.shape a) (np.field_shape s c)
  then
    if np.castable a
    then inr {| np.ra_shape := s;
                  np.ra_fields :=
                    [{| np.f_name := "pos"; np.f_sub := k; np.f_src := p |};
                     {| np.f_name := "color"; np.f_sub := c; np.f_src := Some a |}] |}
    else inl OverflowError
  else inl ValueError.
Proof. reflexivity. Qed.

Lemma color_is_array_shape (c : pyval) :
  color_is_array c = true -> exists a, c = PyArray a /\ 2 <= np.ndim a.
Proof.
  destruct c as [s | xs | n | a]; cbn; try discriminate.
  intros E. exists a. split; [reflexivity |]. unfold color_is_array in E. now apply Nat.ltb_lt in E.
Qed.

Lemma build_vbo_outcome (st st1 : state) (r : exn + unit) :
  _build_vbo st = (r, st1) ->
  _opts (self st1) = _opts (self st) /\
  _program (self st1) = _program (self st) /\
  _pos_input_component (self st1) = _pos_input_component (self st) /\
  _color_input_component (self st1) = _color_input_component (self st) /\
  functions (heap st1) = functions (heap st) /\
  variables (heap st1) = variables (heap st) /\
  trace (heap st1) = trace (heap st) ++ [BuildVbo] /\
  (((exists e, r = inl e) /\ _vbo (self st1) = _vbo (self st)) \/
   (r = inr tt /\
    exists d, _data (self st1) = Some d /\
              _vbo (self st1) =
                Some {| gloo.vb_id := next_id (heap st); gloo.vb_data := d |} /\
              data_of (_opts (self st)) d)).
Proof.
  destruct st as [w v]. destruct v as [go o p pc cc d b].
  destruct o as [ps cl wd tr]. unfold _build_vbo. run.
  destruct ps as [[s | xs | n | a] |]; cbn.
  all: try (intros E; inversion E; subst; cbn; repeat split; left; eauto).
  destruct (np.shape_last (np.shape a)) as [e | k] eqn:Hk; cbn.
  { intros E; inversion E; subst; cbn; repeat split; left; eauto. }
  destruct (color_is_array cl) eqn:Hc; cbn.
  - destruct (color_is_array_shape _ Hc) as (c & -> & Hn). cbn.
    destruct (np.shape_last (np.shape c)) as [e | kc] eqn:Hkc; cbn.
    { intros E; inversion E; subst; cbn; repeat split; left; eauto. }
    rewrite setitem_pos_color.
    destruct (np.can_assign (np.shape a) _) eqn:Ha; cbn.
    2:{ intros E; inversion E; subst; cbn; repeat split; left; eauto. }
    destruct (np.castable a) eqn:Hfa; cbn.
    2:{ intros E; inversion E; subst; cbn; repeat split; left; eauto. }
    rewrite setitem_color.
    destruct (np.can_assign (np.shape c) _) eqn:Hca; cbn.
    2:{ intros E; inversion E; subst; cbn; repeat split; left; eauto. }
    destruct (np.castable c) eqn:Hfc; cbn.
    2:{ intros E; inversion E; subst; cbn; repeat split; left; eauto. }
    intros E; inversion E; subst; cbn; repeat split. right. split; [reflexivity |].
    eexists. split; [reflexivity |]. split; [reflexivity |].
    exists a. cbn. rewrite Hc. apply shape_last_inr in Hk as [_ <-]. apply shape_last_inr in Hkc as [_ <-].
    repeat split.
  - rewrite setitem_pos.
    destruct (np.can_assign (np.shape a) _) eqn:Ha; cbn.
    2:{ intros E; inversion E; subst; cbn; repeat split; left; eauto. }
    destruct (np.castable a) eqn:Hfa; cbn.
    2:{ intros E; inversion E; subst; cbn; repeat split; left; eauto. }
    intros E; inversion E; subst; cbn; repeat split. right. split; [reflexivity |].
    eexists. split; [reflexivity |]. split; [reflexivity |].
    exists a. cbn. rewrite Hc. apply shape_last_inr in Hk as [_ <-].
    repeat split.
Qed.

Lemma build_vbo_succeeds (st : state) (a : np.ndarray) (d : nat) :
  pos (_opts (self st)) = Some (PyArray a) ->
  np.shape_last (np.shape a) = inr d -> d <> 1 ->
  color_fits (_opts (self st)) = true ->
  numbers_fit (_opts (self st)) = true ->
  exists st1, _build_vbo st = (inr tt, st1).
Proof.
  destruct st as [w v]. destruct v as [go o p pc cc dt b].
  destruct o as [ps cl wd tr]. cbn. intros -> Hd Hn Hf Hq.
  unfold numbers_fit in Hq. cbn [pos color] in Hq.
  apply andb_true_iff in Hq as [Hqa Hqc].
  unfold _build_vbo. run. rewrite Hd. cbn.
  pose proof (field_shape_whole _ _ Hd Hn) as Hw.
  destruct (color_is_array cl) eqn:Hc; cbn.
  - destruct (color_is_array_shape _ Hc) as (c & -> & Hc2). cbn.
    unfold color_fits in Hf. cbn [pos color] in Hf. unfold color_is_array in Hc.
    rewrite Hc in Hf. rewrite Hc in Hqc.
    destruct (np.shape_last (np.shape c)) as [e | kc] eqn:Hkc.
    { unfold np.ndim in Hc2. destruct (np.shape c); [cbn in Hc2; lia | discriminate]. }
    cbn. rewrite setitem_pos_color, Hw, can_assign_refl, Hqa. cbn.
    rewrite setitem_color. apply shape_last_inr in Hkc as [_ Hkc]. rewrite Hkc in Hf.
    rewrite Hf, Hqc. cbn.
    eexists. reflexivity.
  - rewrite setitem_pos, Hw, can_assign_refl, Hqa. cbn. eexists. reflexivity.
Qed.

(** ** Slots of Function objects *)

Lemma slot_ref_bound (fs : gmap nat Function) (vs : gmap nat variable) n tr
    (f : nat) (slot : string) (x : nat) :
  is_Some (fs !! f) ->
  slot_ref {| functions := alter (bind_slot slot x) f fs; variables := vs;
              next_id := n; trace := tr |} f slot = Some x.
Proof.
  intros [fn E]. unfold slot_ref. cbn. rewrite lookup_alter_eq, E. cbn.
  apply lookup_insert_eq.
Qed.

Lemma slot_ref_other (fs : gmap nat Function) (vs : gmap nat variable) n tr
    (g f : nat) (s slot : string) (x : nat) :
  g <> f \/ s <> slot ->
  slot_ref {| functions := alter (bind_slot s x) g fs; variables := vs;
              next_id := n; trace := tr |} f slot =
  slot_ref {| functions := fs; variables := vs; next_id := n; trace := tr |} f slot.
Proof.
  intros H. unfold slot_ref. cbn.
  destruct (decide (g = f)) as [-> | Hne].
  - rewrite lookup_alter_eq. destruct (fs !! f) as [fn |]; cbn; [| reflexivity].
    destruct H as [H | H]; [contradiction |]. now apply lookup_insert_ne.
  - now rewrite lookup_alter_ne.
Qed.

#[local] Arguments np.getitem_shape : simpl never.
#[local] Arguments np.has_field : simpl never.
#[local] Arguments np_array : simpl never.

(** ** LinePosInputComponent.update *)

Lemma pos_update_vec2 (st : state) (c : LinePosInputComponent)
    (d : np.recarray) (shp : list nat) (b : gloo.VertexBuffer) :
  _data (self st) = Some d ->
  np.getitem_shape d "pos" = inr shp ->
  np.shape_last shp = inr 2 ->
  _vbo (self st) = Some b ->
  np.has_field "pos" (gloo.vb_data b) = true ->
  LinePosInputComponent_update c st =
  (inr tt,
   {| heap :=
        {| functions :=
             alter (bind_slot "z_pos" (S (next_id (heap st)))) XYInputFunc
               (alter (bind_slot "xy_pos" (next_id (heap st))) XYInputFunc
                  (functions (heap st)));
           variables :=
             <[S (next_id (heap st)) :=
                 {| kind := "uniform"; gltype := "float";
                    value := Number (SFloat (Qmake 0 1)) |}]>
               (<[next_id (heap st) :=
                    {| kind := "attribute"; gltype := "vec2";
                       value := BufferField b "pos" |}]>
                  (variables (heap st)));
           next_id := S (S (next_id (heap st)));
           trace := trace (heap st) ++ [PosUpdate] |};
      self := set_program
                (setitem "local_position" (BoundFunction XYInputFunc)
                   (_program (self st)))
                (self st) |}).
Proof.
  intros Hd Hs Hk Hb Hf. unfold LinePosInputComponent_update. run.
  rewrite Hd, Hs. cbn. rewrite Hk. cbn.
  unfold vbo_getitem. rewrite Hb, Hf. reflexivity.
Qed.

Lemma pos_update_vec3 (st : state) (c : LinePosInputComponent)
    (d : np.recarray) (shp : list nat) (k : nat) :
  _data (self st) = Some d ->
  np.getitem_shape d "pos" = inr shp ->
  np.shape_last shp = inr k ->
  k <> 2 ->
  LinePosInputComponent_update c st =
  (inr tt,
   {| heap :=
        {| functions :=
             alter (bind_slot "xyz_pos" (next_id (heap st))) XYZInputFunc
               (functions (heap st));
           variables :=
             <[next_id (heap st) :=
                 {| kind := "attribute"; gltype := "vec3";
                    value := Buffer (_vbo (self st)) |}]>
               (variables (heap st));
           next_id := S (next_id (heap st));
           trace := trace (heap st) ++ [PosUpdate] |};
      self := set_program
                (setitem "local_position" (BoundFunction XYZInputFunc)
                   (_program (self st)))
                (self st) |}).
Proof.
  intros Hd Hs Hk Hne. unfold LinePosInputComponent_update. run.
  rewrite Hd, Hs. cbn. rewrite Hk. cbn.
  destruct (Nat.eqb_spec k 2) as [-> | _]; [contradiction | reflexivity].
Qed.

Lemma pos_update_outcome (st st1 : state) (r : exn + unit) :
  pos_input_component_update st = (r, st1) ->
  _opts (self st1) = _opts (self st) /\
  _data (self st1) = _data (self st) /\
  _vbo (self st1) = _vbo (self st) /\
  _pos_input_component (self st1) = _pos_input_component (self st) /\
  _color_input_component (self st1) = _color_input_component (self st) /\
  chains (_program (self st1)) = chains (_program (self st)) /\
  exists cs, added st st1 cs /\ no_draw cs /\
             (r = inr tt -> cs = [PosUpdate]).
Proof.
  destruct st as [w v]. unfold pos_input_component_update, LinePosInputComponent_update, added. run.
  destruct (_pos_input_component v) as [c |] eqn:Hc; cbn.
  2:{ intros E; inversion E; subst; cbn. frame. exists []. rewrite app_nil_r. repeat split. discriminate. }
  repeat (split_inner; cbn).
  all: intros E; inversion E; subst; cbn; frame; exists [PosUpdate]; repeat split.
Qed.

(** ** LineColorInputComponent.update *)

Lemma rgba_after_input (fs : gmap nat Function) (f s x y : nat) :
  is_Some (fs !! f) ->
  exists fn, alter (bind_slot "input" y) s (alter (bind_slot "rgba" x) f fs) !! f
             = Some fn /\
             bindings fn !! "rgba" = Some x.
Proof.
  intros [fn0 E]. destruct (decide (s = f)) as [-> | Hne].
  - rewrite !lookup_alter_eq, E. cbn. eexists. split; [reflexivity |]. cbn.
    rewrite lookup_insert_ne by discriminate. apply lookup_insert_eq.
  - rewrite lookup_alter_ne by assumption. rewrite lookup_alter_eq, E. cbn.
    eexists. split; [reflexivity |]. apply lookup_insert_eq.
Qed.

Lemma color_update_vertex (st : state) (c : LineColorInputComponent)
    (d : np.recarray) (b : gloo.VertexBuffer) (fs : list nat) :
  _data (self st) = Some d ->
  np.has_field "color" d = true ->
  _vbo (self st) = Some b ->
  np.has_field "color" (gloo.vb_data b) = true ->
  is_Some (functions (heap st) !! frag_func c) ->
  chains (_program (self st)) !! "vert_post_hook" = Some fs ->
  LineColorInputComponent_update c st =
  (inr tt,
   {| heap :=
        {| functions :=
             alter (bind_slot "output" (next_id (heap st))) (support_func c)
               (alter (bind_slot "input" (S (next_id (heap st)))) (support_func c)
                  (alter (bind_slot "rgba" (next_id (heap st))) (frag_func c)
                     (functions (heap st))));
           variables :=
             <[S (next_id (heap st)) :=
                 {| kind := "attribute"; gltype := "vec4";
                    value := BufferField b "color" |}]>
               (<[next_id (heap st) :=
                    {| kind := "varying"; gltype := "vec4"; value := NoValue |}]>
                  (variables (heap st)));
           next_id := S (S (next_id (heap st)));
           trace := trace (heap st) ++ [ColorUpdate] |};
      self :=
        set_program
          {| vert := vert (_program (self st));
             frag := frag (_program (self st));
             hooks := <["frag_color" := BoundFunction (frag_func c)]>
                        (hooks (_program (self st)));
             chains := <["vert_post_hook" := fs ++ [support_func c]]>
                         (chains (_program (self st))) |}
          (self st) |}).
Proof.
  intros Hd Hf Hb Hbf Hlive Hch. unfold LineColorInputComponent_update. run.
  rewrite Hd. cbn. rewrite Hf. cbn. unfold add_callback. cbn. rewrite Hch. cbn.
  unfold vbo_getitem. rewrite Hb, Hbf. cbn.
  destruct (rgba_after_input _ _ (support_func c) (next_id (heap st))
              (S (next_id (heap st))) Hlive) as (fn & -> & ->).
  reflexivity.
Qed.

Lemma color_update_uniform (st : state) (c : LineColorInputComponent)
    (d : np.recarray) :
  _data (self st) = Some d ->
  np.has_field "color" d = false ->
  LineColorInputComponent_update c st =
  (inr tt,
   {| heap :=
        {| functions :=
             alter (bind_slot "rgba" (next_id (heap st))) (frag_func c)
               (functions (heap st));
           variables :=
             <[next_id (heap st) :=
                 {| kind := "uniform"; gltype := "vec4";
                    value := Array (np_array (color (_opts (self st)))) |}]>
               (variables (heap st));
           next_id := S (next_id (heap st));
           trace := trace (heap st) ++ [ColorUpdate] |};
      self :=
        set_program
          (setitem "frag_color" (BoundFunction (frag_func c)) (_program (self st)))
          (self st) |}).
Proof.
  intros Hd Hf. unfold LineColorInputComponent_update. run.
  rewrite Hd. cbn. rewrite Hf. reflexivity.
Qed.

Lemma color_update_outcome (st st1 : state) (r : exn + unit) :
  color_input_component_update st = (r, st1) ->
  _opts (self st1) = _opts (self st) /\
  _data (self st1) = _data (self st) /\
  _vbo (self st1) = _vbo (self st) /\
  _pos_input_component (self st1) = _pos_input_component (self st) /\
  _color_input_component (self st1) = _color_input_component (self st) /\
  exists cs, added st st1 cs /\ no_draw cs /\
             (r = inr tt -> cs = [ColorUpdate]).
Proof.
  destruct st as [w v].
  unfold color_input_component_update, LineColorInputComponent_update, added. run.
  destruct (_color_input_component v) as [c |] eqn:Hc; cbn.
  2:{ intros E; inversion E; subst; cbn. frame. exists []. rewrite app_nil_r.
      repeat split. discriminate. }
  unfold add_callback, vbo_getitem.
  repeat (split_inner; cbn).
  all: intros E; inversion E; subst; cbn; frame; exists [ColorUpdate]; repeat split.
Qed.

(** ** paint *)

#[local] Arguments _build_vbo : simpl never.
#[local] Arguments pos_input_component_update : simpl never.
#[local] Arguments color_input_component_update : simpl never.
#[local] Arguments nothing_to_draw : simpl never.

Lemma paint_cases (st st' : state) (r : exn + unit) :
  paint st = (r, st') ->
  _opts (self st') = _opts (self st) /\
  exists cs, added st st' cs /\
    ((r = inr tt /\ nothing_to_draw (pos (_opts (self st))) = inr true /\
      st' = st /\ cs = []) \/
     ((exists e, r = inl e) /\
      nothing_to_draw (pos (_opts (self st))) <> inr true /\
      no_draw cs /\
      (_vbo (self st') = _vbo (self st) \/
       (_vbo (self st) = None /\
        exists b, _vbo (self st') = Some b /\
                  data_of (_opts (self st)) (gloo.vb_data b)))) \/
     (r = inr tt /\ nothing_to_draw (pos (_opts (self st))) = inr false /\
      exists b tr,
        _vbo (self st') = Some b /\
        transform (_opts (self st)) = Some tr /\
        hooks (_program (self st')) !! "map_local_to_nd" = Some (BoundMap tr) /\
        ((_vbo (self st) = Some b /\
          cs = [GlLineWidth (width (_opts (self st)));
                Draw "LINE_STRIP" (_program (self st'))]) \/
         (_vbo (self st) = None /\
          data_of (_opts (self st)) (gloo.vb_data b) /\
          cs = [BuildVbo; PosUpdate; ColorUpdate;
                GlLineWidth (width (_opts (self st)));
                Draw "LINE_STRIP" (_program (self st'))])))).
Proof.
  destruct st as [w v]. unfold paint, added, no_draw. run.
  destruct (nothing_to_draw (pos (_opts v))) as [e | [|]] eqn:Hn; cbn.
  - intros E; inversion E; subst; cbn. frame. exists []. rewrite app_nil_r.
    split; [reflexivity |]. right. left. split; [eauto |].
        split; [discriminate |]. split; [reflexivity |]. auto.
  - intros E; inversion E; subst; cbn. frame. exists []. rewrite app_nil_r.
    split; [reflexivity |]. left. auto.
  - destruct (_vbo v) as [b |] eqn:Hb; cbn.
    + destruct (transform (_opts v)) as [tr |] eqn:Ht; cbn.
      * intros E; inversion E; subst; cbn. frame. eexists.
        split; [rewrite <- app_assoc; reflexivity |]. right. right. frame.
        exists b, tr. frame. split; [apply lookup_insert_eq |]. left. auto.
      * intros E; inversion E; subst; cbn. frame. exists []. rewrite app_nil_r.
        split; [reflexivity |]. right. left. split; [eauto |].
        split; [discriminate |]. split; [reflexivity |]. auto.
    + destruct (_build_vbo {| heap := w; self := v |}) as [[e | []] st1] eqn:E1;
        apply build_vbo_outcome in E1
          as (Ho1 & Hp1 & _ & _ & _ & _ & Ht1 &
              [[[e' He] Hv1] | (Hr & d & Hd1 & Hv1 & Hdo)]);
        try discriminate; cbn in *.
      * intros E; inversion E; subst. frame. exists [BuildVbo].
        split; [assumption |]. right. left. split; [eauto |]. split; [congruence |].
        split; [reflexivity |]. left. congruence.
      * destruct (pos_input_component_update st1) as [[e | []] st2] eqn:E2;
          apply pos_update_outcome in E2
            as (Ho2 & _ & Hv2 & _ & _ & _ & cs2 & Ha2 & Hn2 & Hr2);
          unfold added in Ha2; cbn.
        { intros E; inversion E; subst. split; [congruence |].
          exists (BuildVbo :: cs2). split; [rewrite Ha2, Ht1, <- app_assoc; reflexivity |].
          right. left. split; [eauto |]. split; [congruence |]. split; [assumption |]. right.
          split; [reflexivity |]. eexists. split; [rewrite Hv2; eassumption | assumption]. }
        destruct (color_input_component_update st2) as [[e | []] st3] eqn:E3;
          apply color_update_outcome in E3
            as (Ho3 & _ & Hv3 & _ & _ & cs3 & Ha3 & Hn3 & Hr3);
          unfold added in Ha3; cbn.
        { intros E; inversion E; subst. split; [congruence |].
          exists (BuildVbo :: PosUpdate :: cs3).
          split; [rewrite Ha3, Ha2, Ht1, (Hr2 eq_refl), <- !app_assoc; reflexivity |].
          right. left. split; [eauto |]. split; [congruence |]. split; [assumption |]. right.
          split; [reflexivity |]. eexists.
          split; [rewrite Hv3, Hv2; eassumption | assumption]. }
        assert (Ho : _opts (self st3) = _opts v) by congruence.
        rewrite Ho.
        destruct (transform (_opts v)) as [tr |] eqn:Ht; cbn.
        -- intros E; inversion E; subst; cbn. split; [assumption |].
           eexists. split.
           { rewrite Ha3, Ha2, Ht1, (Hr2 eq_refl), (Hr3 eq_refl), <- !app_assoc.
             cbn. reflexivity. }
           right. right. frame. eexists _, tr.
           split; [rewrite Hv3, Hv2; eassumption |]. frame.
           split; [apply lookup_insert_eq |]. right. auto.
        -- intros E; inversion E; subst; cbn. split; [assumption |].
           exists [BuildVbo; PosUpdate; ColorUpdate].
           split; [rewrite Ha3, Ha2, Ht1, (Hr2 eq_refl), (Hr3 eq_refl), <- !app_assoc; reflexivity |].
           right. left. split; [eauto |]. split; [congruence |]. split; [reflexivity |]. right.
           split; [reflexivity |]. eexists.
           split; [rewrite Hv3, Hv2; eassumption | assumption].
Qed.

(** ** What the derived array tells the components *)

Lemma data_of_fields (o : options) (d : np.recarray) (a : np.ndarray) :
  data_of o d -> pos o = Some (PyArray a) ->
  np.getitem_shape d "pos" =
    inr (np.field_shape (np.shape_init (np.shape a)) (List.last (np.shape a) 0)) /\
  np.has_field "pos" d = true /\
  np.has_field "color" d = color_is_array (color o).
Proof.
  intros (a' & Hp & Hs & Hf) Ha. rewrite Ha in Hp. injection Hp as <-.
  unfold np.getitem_shape, np.has_field, np.find_field, np.view_shape.
  rewrite Hf, Hs. cbn. repeat split.
  destruct (color_is_array (color o)); reflexivity.
Qed.

Lemma nothing_to_draw_true (p : option pyval) :
  nothing_to_draw p = inr true <->
  p = None \/ exists v, p = Some v /\ py_len v = inr 0.
Proof.
  unfold nothing_to_draw. split.
  - destruct p as [v |]; [| now left].
    destruct (py_len v) as [e | n] eqn:E; [discriminate |].
    intros H. right. exists v. split; [reflexivity |].
    injection H as H. apply Nat.eqb_eq in H. now subst.
  - intros [-> | (v & -> & ->)]; reflexivity.
Qed.

(** ** The invariant of the derived buffer *)

Lemma set_data_frame (st : state) (p c w : option pyval) :
  exists st',
    set_data p c w st = (inr tt, st') /\
    _vbo (self st') = None /\
    pos (_opts (self st')) =
      match p with Some x => Some x | None => pos (_opts (self st)) end /\
    color (_opts (self st')) =
      match c with Some x => x | None => color (_opts (self st)) end /\
    width (_opts (self st')) =
      match w with Some x => x | None => width (_opts (self st)) end /\
    transform (_opts (self st')) = transform (_opts (self st)) /\
    _program (self st') = _program (self st) /\
    _pos_input_component (self st') = _pos_input_component (self st) /\
    _color_input_component (self st') = _color_input_component (self st) /\
    _data (self st') = _data (self st) /\
    functions (heap st') = functions (heap st) /\
    variables (heap st') = variables (heap st) /\
    next_id (heap st') = next_id (heap st).
Proof.
  destruct p, c, w; eexists; (split; [reflexivity |]); cbn; repeat split.
Qed.

Lemma LineVisual_new_ready (w : world) (p c wd : option pyval) :
  exists st,
    LineVisual_new w p c wd = (inr tt, st) /\
    _vbo (self st) = None /\
    pos (_opts (self st)) = p /\
    color (_opts (self st)) =
      match c with Some x => x | None => PyTuple [SInt 1; SInt 1; SInt 1; SInt 1] end /\
    width (_opts (self st)) =
      match wd with Some x => x | None => PyNum (SInt 1) end /\
    transform (_opts (self st)) = Some NullTransform /\
    _pos_input_component (self st) = Some LinePosInputComponent_new /\
    _color_input_component (self st) =
      Some {| frag_func := next_id w; support_func := S (next_id w) |} /\
    chains (_program (self st)) !! "vert_post_hook" = Some [] /\
    hooks (_program (self st)) = ∅ /\
    functions (heap st) =
      <[S (next_id w) := {| code := support_func_code; bindings := ∅ |}]>
        (<[next_id w := {| code := frag_func_code; bindings := ∅ |}]> (functions w)).
Proof.
  remember (LineVisual_new w p c wd) as res eqn:E.
  lazy beta iota zeta delta
    [LineVisual_new __init__ transform_setter LineColorInputComponent_init
     bind ret raise gets modify lift on_heap update_self events_update log alloc
     store_function Function_new set_program set_opts set_transform set__vbo
     add_chain ModularProgram_new blank
     heap self _opts _program _pos_input_component _color_input_component
     _data _vbo _gl_options functions variables next_id trace
     vert frag hooks chains] in E.
  match type of E with
  | context [set_data p c wd ?s] =>
      destruct (set_data_frame s p c wd)
        as (st & E' & Hv & Hp & Hc & Hw & Ht & Hpr & Hpc & Hcc & _ & Hf & _)
  end.
  rewrite E' in E. subst res. clear E'.
  cbn [heap self _opts _program _pos_input_component _color_input_component
       _data _vbo functions variables next_id trace pos color width transform] in *.
  exists st. split; [reflexivity |]. rewrite Hpr. cbn [hooks chains].
  destruct p, c, wd; frame.
  all: assumption.
Qed.

Lemma consistent_without_vbo (st : state) : _vbo (self st) = None -> consistent st.
Proof. intros H b Hb. congruence. Qed.

Lemma consistent_set_data (st st' : state) (p c w : option pyval) (r : exn + unit) :
  set_data p c w st = (r, st') -> consistent st'.
Proof.
  intros E. apply consistent_without_vbo.
  destruct p, c, w; inversion E; reflexivity.
Qed.

Lemma consistent_transform_setter (st st' : state) (tr : option Transform)
    (r : exn + unit) :
  consistent st -> transform_setter tr st = (r, st') -> consistent st'.
Proof.
  intros H E. inversion E; subst. intros b Hb. apply H in Hb.
  exact Hb.
Qed.

Lemma consistent_add_vertex_callback (st st' : state) (f : nat) (r : exn + unit) :
  consistent st -> add_vertex_callback f st = (r, st') -> consistent st'.
Proof.
  intros H. unfold add_vertex_callback. run.
  destruct (add_callback "vert_post_hook" f (_program (self st))); cbn;
    intros E; inversion E; subst; exact H.
Qed.

Lemma consistent_add_fragment_callback (st st' : state) (f : nat) (r : exn + unit) :
  consistent st -> add_fragment_callback f st = (r, st') -> consistent st'.
Proof.
  intros H. unfold add_fragment_callback. run.
  destruct (add_callback "frag_post_hook" f (_program (self st))); cbn;
    intros E; inversion E; subst; exact H.
Qed.

Lemma consistent_paint (st st' : state) (r : exn + unit) :
  consistent st -> paint st = (r, st') -> consistent st'.
Proof.
  intros H E. apply paint_cases in E as (Ho & cs & _ & Hc).
  intros b Hb. rewrite Ho.
  destruct Hc
    as [(_ & _ & -> & _) | [(_ & _ & _ & Hv) | (_ & _ & b' & tr & Hv & _ & _ & Hw)]].
  - now apply H.
  - destruct Hv as [Hv | (_ & b' & Hv & Hd)].
    + apply H. congruence.
    + congruence.
  - destruct Hw as [[Hw _] | (_ & Hd & _)].
    + apply H. congruence.
    + congruence.
Qed.

(** ** Position input *)

Lemma pos_mode_bound (v : LineVisual) (f : nat) :
  pos_mode (set_program (setitem "local_position" (BoundFunction f) (_program v)) v) =
  if f =? XYInputFunc then Some Vec2Mode
  else if f =? XYZInputFunc then Some Vec3Mode
  else None.
Proof. unfold pos_mode. cbn. now rewrite lookup_insert_eq. Qed.

Lemma built_for_update (st st1 : state) (a : np.ndarray) (d : nat) :
  pos (_opts (self st)) = Some (PyArray a) ->
  np.shape_last (np.shape a) = inr d -> d <> 1 ->
  _build_vbo st = (inr tt, st1) ->
  exists dd b,
    _data (self st1) = Some dd /\
    _vbo (self st1) = Some b /\
    gloo.vb_data b = dd /\
    gloo.vb_id b = next_id (heap st) /\
    np.getitem_shape dd "pos" = inr (np.shape a) /\
    np.has_field "pos" dd = true /\
    functions (heap st1) = functions (heap st).
Proof.
  intros Hp Hd Hn E.
  apply build_vbo_outcome in E
    as (_ & _ & _ & _ & Hf & _ & _ & [[[e He] _] | (_ & dd & Hdd & Hv & Hdo)]);
    [discriminate |].
  destruct (data_of_fields _ _ _ Hdo Hp) as (Hs & Hpf & _).
  exists dd, {| gloo.vb_id := next_id (heap st); gloo.vb_data := dd |}.
  frame. split; [| now split].
  rewrite Hs. f_equal. destruct (shape_last_inr _ _ Hd) as [_ ->].
  now apply field_shape_whole.
Qed.

(** C1, as stated, fails: a position array whose trailing dimension is 4
    raises no shape error.  [paint] builds the buffer, the position
    component binds the vec3 Function and the draw is issued. *)
Lemma trailing_dimension_4_raises_nothing :
  let st := fresh_visual (Some (PyArray pos_3x4)) None None in
  py_shape (pos (_opts (self st))) = inr [3; 4] /\
  fst (paint st) = inr tt /\
  (exists b, _vbo (self (snd (paint st))) = Some b) /\
  pos_mode (self (snd (paint st))) = Some Vec3Mode /\
  ~ (exists e, fst (paint st) = inl e).
Proof.
  vm_compute. repeat split; [eexists; reflexivity |].
  intros [e He]. discriminate He.
Qed.

(** C1, amended: for every position array whose trailing dimension [d] is
    not 1 and whose numbers convert to [np.float32], and a colour that is
    fixed or an array that broadcasts onto the vertices and converts
    likewise, [_build_vbo] and [LinePosInputComponent.update] both return
    normally; the component is in Vec2Mode when [d] is 2 and in Vec3Mode for
    every other [d]: 0, 3 and 4 alike.  No shape error is raised for such a
    [d]. *)
Theorem pos_mode_by_trailing_dimension (st : state) (a : np.ndarray) (d : nat)
    (c : LinePosInputComponent) :
  pos (_opts (self st)) = Some (PyArray a) ->
  np.shape_last (np.shape a) = inr d ->
  d <> 1 ->
  color_fits (_opts (self st)) = true ->
  numbers_fit (_opts (self st)) = true ->
  exists st1 st2,
    _build_vbo st = (inr tt, st1) /\
    LinePosInputComponent_update c st1 = (inr tt, st2) /\
    (d = 2 -> pos_mode (self st2) = Some Vec2Mode) /\
    (d <> 2 -> pos_mode (self st2) = Some Vec3Mode).
Proof.
  intros Hp Hd Hn Hfit Hnum.
  destruct (build_vbo_succeeds _ _ _ Hp Hd Hn Hfit Hnum) as [st1 E1].
  destruct (built_for_update _ _ _ _ Hp Hd Hn E1)
    as (dd & b & Hdd & Hb & Hbd & _ & Hs & Hpf & _).
  exists st1. destruct (Nat.eq_dec d 2) as [-> | Hne].
  - eexists. split; [exact E1 |]. split.
    + eapply pos_update_vec2; eauto. now rewrite Hbd.
    + split; [intros _; apply pos_mode_bound | intros H; now elim H].
  - eexists. split; [exact E1 |]. split.
    + eapply pos_update_vec3; eauto.
    + split; [intros H; now elim Hne | intros _; apply pos_mode_bound].
Qed.

Lemma pos_mode_by_trailing_dimension_witness :
  let st := fresh_visual (Some (PyArray pos_3x4)) None None in
  exists st1 st2,
    _build_vbo st = (inr tt, st1) /\
    LinePosInputComponent_update LinePosInputComponent_new st1 = (inr tt, st2) /\
    (4 = 2 -> pos_mode (self st2) = Some Vec2Mode) /\
    (4 <> 2 -> pos_mode (self st2) = Some Vec3Mode).
Proof.
  apply (pos_mode_by_trailing_dimension
           (fresh_visual (Some (PyArray pos_3x4)) None None)
           pos_3x4 4 LinePosInputComponent_new).
  - reflexivity.
  - reflexivity.
  - lia.
  - reflexivity.
  - reflexivity.
Defined.

Lemma pos_update_hook (st st' : state) (c : LinePosInputComponent) :
  LinePosInputComponent_update c st = (inr tt, st') ->
  hooks (_program (self st')) !! "local_position" = Some (BoundFunction XYInputFunc) \/
  hooks (_program (self st')) !! "local_position" = Some (BoundFunction XYZInputFunc).
Proof.
  unfold LinePosInputComponent_update, vbo_getitem. run.
  repeat (split_inner; cbn).
  all: intros E; inversion E; subst; cbn.
  all: rewrite lookup_insert_eq; auto.
Qed.

Lemma variable_stored (vs : gmap nat variable) (n : nat) (x y : variable) :
  <[S n := y]> (<[n := x]> vs) !! n = Some x.
Proof. rewrite lookup_insert_ne by lia. apply lookup_insert_eq. Qed.

(** C4: after [_build_vbo], [LinePosInputComponent.update] on a position
    array of trailing dimension 2 binds the XY Function to [local_position],
    its [xy_pos] slot to a [vec2] attribute on the buffer's [pos] column and
    its [z_pos] slot to the [float] uniform 0.0; on trailing dimension 3 it
    binds the XYZ Function with [xyz_pos] a [vec3] attribute on the buffer.
    Whenever the update returns, [local_position] holds exactly one of the
    two Functions. *)
Theorem local_position_bindings (st st1 : state) (a : np.ndarray)
    (c : LinePosInputComponent) :
  pos (_opts (self st)) = Some (PyArray a) ->
  _build_vbo st = (inr tt, st1) ->
  is_Some (functions (heap st) !! XYInputFunc) ->
  is_Some (functions (heap st) !! XYZInputFunc) ->
  (np.shape_last (np.shape a) = inr 2 ->
   exists st2 b,
     LinePosInputComponent_update c st1 = (inr tt, st2) /\
     _vbo (self st2) = Some b /\
     np.has_field "pos" (gloo.vb_data b) = true /\
     hooks (_program (self st2)) !! "local_position"
       = Some (BoundFunction XYInputFunc) /\
     slot_variable (heap st2) XYInputFunc "xy_pos"
       = Some {| kind := "attribute"; gltype := "vec2";
                 value := BufferField b "pos" |} /\
     slot_variable (heap st2) XYInputFunc "z_pos"
       = Some {| kind := "uniform"; gltype := "float";
                 value := Number (SFloat (Qmake 0 1)) |}) /\
  (np.shape_last (np.shape a) = inr 3 ->
   exists st2 b,
     LinePosInputComponent_update c st1 = (inr tt, st2) /\
     _vbo (self st2) = Some b /\
     hooks (_program (self st2)) !! "local_position"
       = Some (BoundFunction XYZInputFunc) /\
     slot_variable (heap st2) XYZInputFunc "xyz_pos"
       = Some {| kind := "attribute"; gltype := "vec3";
                 value := Buffer (Some b) |}) /\
  (forall st2,
     LinePosInputComponent_update c st1 = (inr tt, st2) ->
     exists f,
       hooks (_program (self st2)) !! "local_position" = Some (BoundFunction f) /\
       ((f = XYInputFunc /\ f <> XYZInputFunc) \/
        (f = XYZInputFunc /\ f <> XYInputFunc))).
Proof.
  intros Hp E1 Hxy Hxyz. split; [| split].
  - intros Hd.
    destruct (built_for_update _ _ _ _ Hp Hd ltac:(lia) E1)
      as (dd & b & Hdd & Hb & Hbd & _ & Hs & Hpf & Hfs).
    rewrite <- Hfs in Hxy.
    eexists _, b.
    split; [eapply pos_update_vec2; eauto; now rewrite Hbd |]. cbn.
    split; [assumption |]. split; [now rewrite Hbd |].
    split; [apply lookup_insert_eq |]. unfold slot_variable. split.
    + rewrite slot_ref_other by (right; discriminate).
      rewrite slot_ref_bound by assumption. cbn. apply variable_stored.
    + rewrite slot_ref_bound by (now apply lookup_alter_is_Some).
      cbn. apply lookup_insert_eq.
  - intros Hd.
    destruct (built_for_update _ _ _ _ Hp Hd ltac:(lia) E1)
      as (dd & b & Hdd & Hb & Hbd & _ & Hs & Hpf & Hfs).
    rewrite <- Hfs in Hxyz.
    eexists _, b.
    split; [eapply pos_update_vec3; eauto; lia |]. cbn.
    split; [assumption |].
    split; [apply lookup_insert_eq |]. unfold slot_variable.
    rewrite slot_ref_bound by assumption. cbn. rewrite Hb. apply lookup_insert_eq.
  - intros st2 E2. destruct (pos_update_hook _ _ _ E2) as [H | H].
    + exists XYInputFunc. split; [assumption |]. left. split; [reflexivity | discriminate].
    + exists XYZInputFunc. split; [assumption |]. right. split; [reflexivity | discriminate].
Qed.

Lemma local_position_bindings_witness :
  let st := fresh_visual (Some (PyArray pos_3x2)) None None in
  let st1 := after _build_vbo st in
  exists st2 b,
    LinePosInputComponent_update LinePosInputComponent_new st1 = (inr tt, st2) /\
    _vbo (self st2) = Some b /\
    np.has_field "pos" (gloo.vb_data b) = true /\
    hooks (_program (self st2)) !! "local_position"
      = Some (BoundFunction XYInputFunc) /\
    slot_variable (heap st2) XYInputFunc "xy_pos"
      = Some {| kind := "attribute"; gltype := "vec2";
                value := BufferField b "pos" |} /\
    slot_variable (heap st2) XYInputFunc "z_pos"
      = Some {| kind := "uniform"; gltype := "float";
                value := Number (SFloat (Qmake 0 1)) |}.
Proof.
  refine (proj1 (local_position_bindings
                   (fresh_visual (Some (PyArray pos_3x2)) None None)
                   (after _build_vbo (fresh_visual (Some (PyArray pos_3x2)) None None))
                   pos_3x2 LinePosInputComponent_new _ _ _ _) _).
  - reflexivity.
  - vm_compute. reflexivity.
  - vm_compute. eexists. reflexivity.
  - vm_compute. eexists. reflexivity.
  - reflexivity.
Defined.

(** ** Shared class-level Functions *)

(** C10, as stated, fails for two visuals in different modes: visual A, on
    2-D positions, has painted; visual D, on 3-D positions, then updates.
    The update rebinds the XYZ Function only: the Function on A's
    [local_position] hook is left as it was and its attribute still reads
    A's own buffer. *)
Lemma other_mode_binding_is_untouched :
  let st := after (LinePosInputComponent_update LinePosInputComponent_new) visual_d in
  LinePosInputComponent_update LinePosInputComponent_new visual_d = (inr tt, st) /\
  pos_mode (self visual_a) = Some Vec2Mode /\
  pos_mode (self st) = Some Vec3Mode /\
  functions (heap st) !! XYInputFunc = functions (heap visual_a) !! XYInputFunc /\
  local_position_attribute (heap st) (self visual_a)
    = local_position_attribute (heap visual_a) (self visual_a) /\
  exists b,
    _vbo (self visual_a) = Some b /\
    local_position_attribute (heap st) (self visual_a)
      = Some {| kind := "attribute"; gltype := "vec2"; value := BufferField b "pos" |}.
Proof.
  intros st.
  split; [vm_compute; reflexivity |].
  split; [vm_compute; reflexivity |].
  split; [vm_compute; reflexivity |].
  split; [vm_compute; reflexivity |].
  split; [vm_compute; reflexivity |].
  eexists. split; vm_compute; reflexivity.
Qed.

(** C10, amended: [XYInputFunc] and [XYZInputFunc] are class attributes, one
    pair of objects for all position components.  When one visual's
    component updates, it rebinds the slots of the Function that any other
    visual in the same mode has on its [local_position] hook: seen from
    that other visual, whose own fields did not change, the attribute now
    reads the updating visual's buffer. *)
Theorem class_functions_are_shared (w : world) (v1 v2 : LineVisual)
    (c2 : LinePosInputComponent) (d2 : np.recarray) (shp : list nat) (k : nat)
    (b2 : gloo.VertexBuffer) :
  _data v2 = Some d2 ->
  np.getitem_shape d2 "pos" = inr shp ->
  np.shape_last shp = inr k ->
  _vbo v2 = Some b2 ->
  np.has_field "pos" (gloo.vb_data b2) = true ->
  is_Some (functions w !! XYInputFunc) ->
  is_Some (functions w !! XYZInputFunc) ->
  hooks (_program v1) !! "local_position"
    = Some (BoundFunction (if k =? 2 then XYInputFunc else XYZInputFunc)) ->
  exists w' v2',
    LinePosInputComponent_update c2 {| heap := w; self := v2 |}
      = (inr tt, {| heap := w'; self := v2' |}) /\
    hooks (_program v2') !! "local_position"
      = hooks (_program v1) !! "local_position" /\
    local_position_attribute w' v1
      = Some {| kind := "attribute";
                gltype := if k =? 2 then "vec2" else "vec3";
                value := if k =? 2 then BufferField b2 "pos"
                         else Buffer (Some b2) |}.
Proof.
  intros Hd Hs Hk Hb Hf Hxy Hxyz H1. unfold local_position_attribute.
  rewrite H1. destruct (Nat.eqb_spec k 2) as [-> | Hne].
  - eexists _, _. split; [eapply pos_update_vec2; eauto |]. cbn.
    split; [apply lookup_insert_eq |]. unfold slot_variable.
    rewrite slot_ref_other by (right; discriminate).
    rewrite slot_ref_bound by assumption. cbn. apply variable_stored.
  - eexists _, _. split; [eapply pos_update_vec3; eauto |]. cbn.
    split; [apply lookup_insert_eq |]. unfold slot_variable.
    rewrite slot_ref_bound by assumption. cbn. rewrite Hb. apply lookup_insert_eq.
Qed.

Lemma class_functions_are_shared_witness :
  exists w' v2',
    LinePosInputComponent_update LinePosInputComponent_new
      {| heap := heap visual_b; self := self visual_b |}
      = (inr tt, {| heap := w'; self := v2' |}) /\
    hooks (_program v2') !! "local_position"
      = hooks (_program (self visual_a)) !! "local_position" /\
    local_position_attribute w' (self visual_a)
      = Some {| kind := "attribute"; gltype := "vec2";
                value := BufferField buffer_b "pos" |}.
Proof.
  apply (class_functions_are_shared (heap visual_b) (self visual_a) (self visual_b)
           LinePosInputComponent_new data_b [2; 2] 2 buffer_b).
  - vm_compute. reflexivity.
  - reflexivity.
  - reflexivity.
  - vm_compute. reflexivity.
  - reflexivity.
  - vm_compute. eexists. reflexivity.
  - vm_compute. eexists. reflexivity.
  - vm_compute. reflexivity.
Defined.

(** Visual A's own buffer is another object than the one its
    [local_position] Function reads once visual B has updated. *)
Example visual_a_reads_the_buffer_of_visual_b :
  let st := after (LinePosInputComponent_update LinePosInputComponent_new) visual_b in
  (exists b, _vbo (self visual_a) = Some b /\ gloo.vb_id b = 4) /\
  local_position_attribute (heap visual_a) (self visual_a)
    = Some {| kind := "attribute"; gltype := "vec2";
              value := BufferField
                         {| gloo.vb_id := 4;
                            gloo.vb_data :=
                              {| np.ra_shape := [3];
                                 np.ra_fields :=
                                   [{| np.f_name := "pos"; np.f_sub := 2;
                                       np.f_src := Some pos_3x2 |}] |} |} "pos" |} /\
  local_position_attribute (heap st) (self visual_a)
    = Some {| kind := "attribute"; gltype := "vec2";
              value := BufferField buffer_b "pos" |}.
Proof.
  vm_compute. repeat split. eexists. split; reflexivity.
Qed.

(** ** Colour input *)

Lemma data_of_color (o : options) (d : np.recarray) :
  data_of o d ->
  np.has_field "pos" d = true /\
  np.has_field "color" d = color_is_array (color o).
Proof.
  intros (a & Hp & Hs & Hf).
  destruct (data_of_fields o d a) as (_ & H1 & H2); [now exists a | assumption |].
  now split.
Qed.

Lemma color_is_array_iff (c : pyval) :
  color_is_array c = true <-> exists a, c = PyArray a /\ 2 <= np.ndim a.
Proof.
  split.
  - apply color_is_array_shape.
  - intros (a & -> & H). unfold color_is_array. now apply Nat.ltb_lt.
Qed.

Lemma color_mode_bound (w : world) (v : LineVisual) (p : ModularProgram)
    (c : LineColorInputComponent) (x : variable) :
  hooks p !! "frag_color" = Some (BoundFunction (frag_func c)) ->
  slot_variable w (frag_func c) "rgba" = Some x ->
  color_mode {| heap := w; self := set_program p v |} c =
  if String.eqb (kind x) "varying" then Some PerVertexColor
  else if String.eqb (kind x) "uniform" then Some UniformColor
  else None.
Proof.
  intros Hh Hx. unfold color_mode. cbn. now rewrite Hh, Nat.eqb_refl, Hx.
Qed.

Lemma rgba_after_vertex (fs : gmap nat Function) (vs : gmap nat variable)
    (n m : nat) (tr : list call) (f s : nat) (x y : variable) :
  is_Some (fs !! f) ->
  slot_variable
    {| functions := alter (bind_slot "output" n) s
                      (alter (bind_slot "input" (S n)) s
                         (alter (bind_slot "rgba" n) f fs));
       variables := <[S n := y]> (<[n := x]> vs);
       next_id := m; trace := tr |} f "rgba" = Some x.
Proof.
  intros Hf. unfold slot_variable.
  rewrite !slot_ref_other by (right; discriminate).
  rewrite slot_ref_bound by assumption. apply variable_stored.
Qed.

Lemma rgba_after_uniform (fs : gmap nat Function) (vs : gmap nat variable)
    (n m : nat) (tr : list call) (f : nat) (x : variable) :
  is_Some (fs !! f) ->
  slot_variable
    {| functions := alter (bind_slot "rgba" n) f fs;
       variables := <[n := x]> vs;
       next_id := m; trace := tr |} f "rgba" = Some x.
Proof.
  intros Hf. unfold slot_variable.
  rewrite slot_ref_bound by assumption. apply lookup_insert_eq.
Qed.

(** C3, as stated, fails: per-vertex colours supplied as nested tuples,
    [((1,0,0,1), (0,1,0,1), (0,0,1,1))] for three vertices, give the
    structured array no [color] field, and the colour component ends in
    UniformColor mode. *)
Lemma nested_colors_get_no_color_field :
  let st := nested_visual in
  pos (_opts (self st)) = Some (PyArray pos_3x2) /\
  color (_opts (self st)) = nested_colors /\
  py_len nested_colors = inr 3 /\
  per_vertex_color_array (color (_opts (self st))) /\
  fst (_build_vbo st) = inr tt /\
  _data (self (after _build_vbo st)) = Some data_u /\
  np.has_field "color" data_u = false /\
  fst (paint st) = inr tt /\
  color_mode (after paint st) first_component = Some UniformColor.
Proof.
  vm_compute. repeat split. lia.
Qed.

(** C3, amended: after [_build_vbo], [LineColorInputComponent.update] is in
    PerVertexColor mode exactly when the structured array has a [color]
    field and in UniformColor mode exactly when it has none; the array has
    that field exactly when the stored colour is an ndarray with more than
    one axis.  A fixed tuple, and tuples or lists nested in one another,
    give no field and UniformColor mode. *)
Theorem color_mode_by_color_field (st st1 : state) (c : LineColorInputComponent) :
  _build_vbo st = (inr tt, st1) ->
  is_Some (functions (heap st) !! frag_func c) ->
  is_Some (chains (_program (self st)) !! "vert_post_hook") ->
  exists d st2,
    _data (self st1) = Some d /\
    LineColorInputComponent_update c st1 = (inr tt, st2) /\
    (color_mode st2 c = Some PerVertexColor <-> np.has_field "color" d = true) /\
    (color_mode st2 c = Some UniformColor <-> np.has_field "color" d = false) /\
    (np.has_field "color" d = true <->
     exists a, color (_opts (self st)) = PyArray a /\ 2 <= np.ndim a) /\
    (forall xs, color (_opts (self st)) = PyTuple xs ->
                np.has_field "color" d = false /\
                color_mode st2 c = Some UniformColor) /\
    (forall a, color (_opts (self st)) = PyNested a ->
               np.has_field "color" d = false /\
               color_mode st2 c = Some UniformColor).
Proof.
  intros E1 Hlive [fs Hch].
  apply build_vbo_outcome in E1
    as (Ho & Hp & _ & _ & Hf & _ & _ & [[[e He] _] | (_ & d & Hd & Hv & Hdo)]);
    [discriminate |].
  destruct (data_of_color _ _ Hdo) as [_ Hc].
  rewrite <- Hf in Hlive. rewrite <- Hp in Hch.
  exists d. destruct (color_is_array (color (_opts (self st)))) eqn:Hca.
  - eexists. split; [assumption |].
    split; [eapply color_update_vertex; eauto |].
    erewrite color_mode_bound;
      [| apply lookup_insert_eq | now apply rgba_after_vertex].
    cbn. split; [tauto |]. rewrite Hc. split; [split; discriminate |]. split.
    + split; [intros _; now apply color_is_array_iff | reflexivity].
    + split; intros x Hx; rewrite Hx in Hca; discriminate Hca.
  - eexists. split; [assumption |].
    split; [eapply color_update_uniform; eauto |].
    erewrite color_mode_bound;
      [| apply lookup_insert_eq | now apply rgba_after_uniform].
    cbn. rewrite Hc. split; [split; discriminate |]. split; [tauto |]. split.
    + split; [discriminate |].
      intros H. apply color_is_array_iff in H. congruence.
    + split; intros x _; now split.
Qed.

Lemma color_mode_by_color_field_witness :
  exists d st2,
    _data (self (after _build_vbo per_vertex_visual)) = Some d /\
    LineColorInputComponent_update first_component (after _build_vbo per_vertex_visual)
      = (inr tt, st2) /\
    (color_mode st2 first_component = Some PerVertexColor <->
     np.has_field "color" d = true) /\
    (color_mode st2 first_component = Some UniformColor <->
     np.has_field "color" d = false) /\
    (np.has_field "color" d = true <->
     exists a, color (_opts (self per_vertex_visual)) = PyArray a /\ 2 <= np.ndim a) /\
    (forall xs, color (_opts (self per_vertex_visual)) = PyTuple xs ->
                np.has_field "color" d = false /\
                color_mode st2 first_component = Some UniformColor) /\
    (forall a, color (_opts (self per_vertex_visual)) = PyNested a ->
               np.has_field "color" d = false /\
               color_mode st2 first_component = Some UniformColor).
Proof.
  apply (color_mode_by_color_field per_vertex_visual
           (after _build_vbo per_vertex_visual) first_component).
  - vm_compute. reflexivity.
  - vm_compute. eexists. reflexivity.
  - vm_compute. eexists. reflexivity.
Defined.

(** One colour given as the array [[[1, 0, 0, 1]]] has two axes: it gets a
    [color] field, filled by broadcasting, and PerVertexColor mode. *)
Example one_row_array_gets_a_color_field :
  let st := fresh_visual (Some (PyArray pos_3x2)) (Some (PyArray colors_1x4)) None in
  fst (paint st) = inr tt /\
  (exists d, _data (self (after paint st)) = Some d /\
             np.has_field "color" d = true) /\
  color_mode (after paint st) first_component = Some PerVertexColor.
Proof.
  vm_compute. repeat split. eexists. split; reflexivity.
Qed.

(** C5: when the structured array has a [color] field,
    [LineColorInputComponent.update] binds the fragment Function's [rgba]
    slot to a new [varying vec4], puts the fragment Function on the
    [frag_color] hook, appends the support Function to the [vert_post_hook]
    chain, binds its [input] slot to a [vec4] attribute on the buffer's
    [color] column, and binds its [output] slot to the very variable object
    that [rgba] holds. *)
Theorem per_vertex_color_bindings (st : state) (c : LineColorInputComponent)
    (d : np.recarray) (b : gloo.VertexBuffer) (fs : list nat) :
  _data (self st) = Some d ->
  np.has_field "color" d = true ->
  _vbo (self st) = Some b ->
  gloo.vb_data b = d ->
  is_Some (functions (heap st) !! frag_func c) ->
  is_Some (functions (heap st) !! support_func c) ->
  chains (_program (self st)) !! "vert_post_hook" = Some fs ->
  exists st' x,
    LineColorInputComponent_update c st = (inr tt, st') /\
    slot_ref (heap st') (frag_func c) "rgba" = Some x /\
    variables (heap st') !! x
      = Some {| kind := "varying"; gltype := "vec4"; value := NoValue |} /\
    hooks (_program (self st')) !! "frag_color"
      = Some (BoundFunction (frag_func c)) /\
    chains (_program (self st')) !! "vert_post_hook"
      = Some (fs ++ [support_func c]) /\
    slot_variable (heap st') (support_func c) "input"
      = Some {| kind := "attribute"; gltype := "vec4";
                value := BufferField b "color" |} /\
    slot_ref (heap st') (support_func c) "output" = Some x.
Proof.
  intros Hd Hf Hb Hbd Hfrag Hsup Hch.
  eexists _, (next_id (heap st)).
  split; [eapply color_update_vertex; eauto; now rewrite Hbd |]. cbn.
  split.
  { rewrite !slot_ref_other by (right; discriminate). now apply slot_ref_bound. }
  split; [apply variable_stored |].
  split; [apply lookup_insert_eq |].
  split; [apply lookup_insert_eq |].
  split.
  - unfold slot_variable. rewrite slot_ref_other by (right; discriminate).
    rewrite slot_ref_bound by (now apply lookup_alter_is_Some).
    apply lookup_insert_eq.
  - apply slot_ref_bound. now apply lookup_alter_is_Some, lookup_alter_is_Some.
Qed.

Lemma per_vertex_color_bindings_witness :
  exists st' x,
    LineColorInputComponent_update first_component
      (after _build_vbo per_vertex_visual) = (inr tt, st') /\
    slot_ref (heap st') (frag_func first_component) "rgba" = Some x /\
    variables (heap st') !! x
      = Some {| kind := "varying"; gltype := "vec4"; value := NoValue |} /\
    hooks (_program (self st')) !! "frag_color"
      = Some (BoundFunction (frag_func first_component)) /\
    chains (_program (self st')) !! "vert_post_hook"
      = Some ([] ++ [support_func first_component]) /\
    slot_variable (heap st') (support_func first_component) "input"
      = Some {| kind := "attribute"; gltype := "vec4";
                value := BufferField buffer_c "color" |} /\
    slot_ref (heap st') (support_func first_component) "output" = Some x.
Proof.
  apply (per_vertex_color_bindings (after _build_vbo per_vertex_visual)
           first_component data_c buffer_c []).
  - vm_compute. reflexivity.
  - reflexivity.
  - vm_compute. reflexivity.
  - reflexivity.
  - vm_compute. eexists. reflexivity.
  - vm_compute. eexists. reflexivity.
  - vm_compute. reflexivity.
Defined.

(** C9: where the claim has the alpha of a three-component tuple defaulted,
    the code binds [(1, 0, 0)] as it is.  The uniform is declared [vec4] and
    its value is an array of three numbers, so it is no array of four
    components, whatever the alpha. *)
Lemma rgb_tuple_is_bound_without_alpha :
  let st := after paint rgb_visual in
  color (_opts (self st)) = PyTuple (ints [1; 0; 0]%Z) /\
  fst (paint rgb_visual) = inr tt /\
  slot_variable (heap st) (frag_func first_component) "rgba"
    = Some {| kind := "uniform"; gltype := "vec4";
              value := Array {| np.shape := [3]; np.elems := ints [1; 0; 0]%Z |} |} /\
  forall a : np.ndarray,
    np.shape a = [4] ->
    slot_variable (heap st) (frag_func first_component) "rgba"
    <> Some {| kind := "uniform"; gltype := "vec4"; value := Array a |}.
Proof.
  intros st.
  assert (H : slot_variable (heap st) (frag_func first_component) "rgba"
              = Some {| kind := "uniform"; gltype := "vec4";
                        value := Array {| np.shape := [3];
                                          np.elems := ints [1; 0; 0]%Z |} |})
    by (vm_compute; reflexivity).
  split; [vm_compute; reflexivity |].
  split; [vm_compute; reflexivity |].
  split; [exact H |].
  intros a Ha E. rewrite H in E. injection E as <-. discriminate Ha.
Qed.

(** For a colour that is a fixed tuple of any length,
    [LineColorInputComponent.update] after [_build_vbo] binds the fragment
    Function's [rgba] slot to a new [uniform vec4] whose value is
    [np.array] of the tuple, and puts the fragment Function on the
    [frag_color] hook.  The uniform is the only variable it creates, so no
    varying, and the chains are left as they were, so no support function
    is added. *)
Lemma uniform_color_bindings (st st1 : state) (xs : list scalar)
    (c : LineColorInputComponent) :
  color (_opts (self st)) = PyTuple xs ->
  _build_vbo st = (inr tt, st1) ->
  is_Some (functions (heap st) !! frag_func c) ->
  exists st2 x,
    LineColorInputComponent_update c st1 = (inr tt, st2) /\
    slot_ref (heap st2) (frag_func c) "rgba" = Some x /\
    variables (heap st2) !! x
      = Some {| kind := "uniform"; gltype := "vec4";
                value := Array (np_array (PyTuple xs)) |} /\
    hooks (_program (self st2)) !! "frag_color"
      = Some (BoundFunction (frag_func c)) /\
    (forall y, y <> x -> variables (heap st2) !! y = variables (heap st1) !! y) /\
    chains (_program (self st2)) = chains (_program (self st1)).
Proof.
  intros Hx E1 Hlive.
  apply build_vbo_outcome in E1
    as (Ho & _ & _ & _ & Hf & _ & _ & [[[e He] _] | (_ & d & Hd & _ & Hdo)]);
    [discriminate |].
  destruct (data_of_color _ _ Hdo) as [_ Hc]. rewrite Hx in Hc.
  rewrite <- Hf in Hlive.
  eexists _, (next_id (heap st1)).
  split; [eapply color_update_uniform; eauto |]. cbn.
  split; [now apply slot_ref_bound |].
  split; [rewrite lookup_insert_eq, Ho, Hx; reflexivity |].
  split; [apply lookup_insert_eq |].
  split; [| reflexivity].
  intros y Hy. now apply lookup_insert_ne.
Qed.

Lemma uniform_color_bindings_witness :
  exists st2 x,
    LineColorInputComponent_update first_component (after _build_vbo red_line)
      = (inr tt, st2) /\
    slot_ref (heap st2) (frag_func first_component) "rgba" = Some x /\
    variables (heap st2) !! x
      = Some {| kind := "uniform"; gltype := "vec4";
                value := Array (np_array (PyTuple (ints [1; 0; 0; 1]%Z))) |} /\
    hooks (_program (self st2)) !! "frag_color"
      = Some (BoundFunction (frag_func first_component)) /\
    (forall y, y <> x ->
       variables (heap st2) !! y
       = variables (heap (after _build_vbo red_line)) !! y) /\
    chains (_program (self st2))
      = chains (_program (self (after _build_vbo red_line))).
Proof.
  apply (uniform_color_bindings red_line (after _build_vbo red_line)
           (ints [1; 0; 0; 1]%Z) first_component).
  - reflexivity.
  - vm_compute. reflexivity.
  - vm_compute. eexists. reflexivity.
Defined.

(** C2, as stated, fails: after per-vertex colours, a fixed colour and a
    second [paint], the component is in UniformColor mode, yet the support
    function is still the member of the [vert_post_hook] chain and its
    [output] slot still holds the varying. *)
Lemma support_function_stays_in_chain :
  let st := recolored_visual in
  _color_input_component (self st) = Some first_component /\
  color_mode st first_component = Some UniformColor /\
  chains (_program (self st)) !! "vert_post_hook"
    = Some [support_func first_component] /\
  slot_variable (heap st) (support_func first_component) "output"
    = Some {| kind := "varying"; gltype := "vec4"; value := NoValue |} /\
  ~ residue_free st first_component.
Proof.
  assert (Hc : chains (_program (self recolored_visual)) !! "vert_post_hook"
               = Some [support_func first_component])
    by (vm_compute; reflexivity).
  cbv zeta. split; [vm_compute; reflexivity |].
  split; [vm_compute; reflexivity |].
  split; [exact Hc |].
  split; [vm_compute; reflexivity |].
  intros H. destruct (H _ Hc) as [Hn _]. apply Hn. apply list_elem_of_In. now left.
Qed.

(** C2, amended: an [update()] in UniformColor mode rebinds the fragment
    Function's [rgba] slot to a new uniform and rebinds [frag_color], so
    the fragment Function no longer reads a varying.  It does not touch the
    chains, the support Function or any older variable: a support function
    that an earlier PerVertexColor update appended stays in
    [vert_post_hook], with its slots bound as before. *)
Theorem uniform_update_keeps_chain (st : state) (c : LineColorInputComponent)
    (d : np.recarray) :
  _data (self st) = Some d ->
  np.has_field "color" d = false ->
  is_Some (functions (heap st) !! frag_func c) ->
  support_func c <> frag_func c ->
  exists st',
    LineColorInputComponent_update c st = (inr tt, st') /\
    color_mode st' c = Some UniformColor /\
    chains (_program (self st')) = chains (_program (self st)) /\
    functions (heap st') !! support_func c = functions (heap st) !! support_func c /\
    (forall slot x,
       slot_ref (heap st) (support_func c) slot = Some x ->
       x <> next_id (heap st) ->
       slot_variable (heap st') (support_func c) slot
       = slot_variable (heap st) (support_func c) slot).
Proof.
  intros Hd Hf Hlive Hne.
  eexists. split; [eapply color_update_uniform; eauto |].
  split.
  { erewrite color_mode_bound;
      [| apply lookup_insert_eq | now apply rgba_after_uniform].
    reflexivity. }
  cbn. split; [reflexivity |].
  split; [now apply lookup_alter_ne |].
  intros slot x Hx Hfresh. unfold slot_variable.
  rewrite slot_ref_other by (left; congruence).
  destruct (heap st) as [fs vs n tr]. unfold slot_ref in *. cbn in *.
  rewrite Hx. apply lookup_insert_ne. congruence.
Qed.

Lemma uniform_update_keeps_chain_witness :
  let st := after (set_data None (Some red) None) (after paint per_vertex_visual) in
  let st1 := after _build_vbo st in
  exists st',
    LineColorInputComponent_update first_component st1 = (inr tt, st') /\
    color_mode st' first_component = Some UniformColor /\
    chains (_program (self st')) = chains (_program (self st1)) /\
    functions (heap st') !! support_func first_component
      = functions (heap st1) !! support_func first_component /\
    (forall slot x,
       slot_ref (heap st1) (support_func first_component) slot = Some x ->
       x <> next_id (heap st1) ->
       slot_variable (heap st') (support_func first_component) slot
       = slot_variable (heap st1) (support_func first_component) slot).
Proof.
  apply (uniform_update_keeps_chain
           (after _build_vbo
              (after (set_data None (Some red) None) (after paint per_vertex_visual)))
           first_component data_u).
  - vm_compute. reflexivity.
  - reflexivity.
  - vm_compute. eexists. reflexivity.
  - discriminate.
Defined.

(** ** Reachable states keep the buffer invariant *)

Lemma consistent_new (w : world) (p c wd : option pyval) (r : exn + unit)
    (st : state) :
  LineVisual_new w p c wd = (r, st) -> consistent st.
Proof.
  intros E. destruct (LineVisual_new_ready w p c wd) as (st0 & E0 & Hv & _).
  rewrite E0 in E. injection E as _ <-. now apply consistent_without_vbo.
Qed.

(** X20: the buffer invariant holds in every reachable state: however a
    visual was constructed and driven through [set_data], [paint], the
    transform setter and the callback adders, and whatever other objects did
    to the shared heap, a buffer that is present was built from the options
    as they stand. *)
Lemma reachable_consistent (st : state) : reachable st -> consistent st.
Proof.
  induction 1 as [w p c wd r st E | st p c wd r st' _ _ E | st r st' _ IH E
                 | st tr r st' _ IH E | st f r st' _ IH E | st f r st' _ IH E
                 | st w _ IH].
  - now apply (consistent_new w p c wd r).
  - now apply (consistent_set_data st st' p c wd r).
  - now apply (consistent_paint st st' r).
  - now apply (consistent_transform_setter st st' tr r).
  - now apply (consistent_add_vertex_callback st st' f r).
  - now apply (consistent_add_fragment_callback st st' f r).
  - exact IH.
Qed.

(** ** paint: a first paint goes through *)

Lemma pos_component_update (st : state) (c : LinePosInputComponent) :
  _pos_input_component (self st) = Some c ->
  pos_input_component_update st = LinePosInputComponent_update c st.
Proof. intros H. unfold pos_input_component_update. run. now rewrite H. Qed.

Lemma color_component_update (st : state) (c : LineColorInputComponent) :
  _color_input_component (self st) = Some c ->
  color_input_component_update st = LineColorInputComponent_update c st.
Proof. intros H. unfold color_input_component_update. run. now rewrite H. Qed.

Lemma paint_rebuild (st st1 st2 st3 : state) (tr : Transform) :
  nothing_to_draw (pos (_opts (self st))) = inr false ->
  _vbo (self st) = None ->
  _build_vbo st = (inr tt, st1) ->
  pos_input_component_update st1 = (inr tt, st2) ->
  color_input_component_update st2 = (inr tt, st3) ->
  transform (_opts (self st3)) = Some tr ->
  paint st =
  (inr tt,
   {| heap :=
        {| functions := functions (heap st3);
           variables := variables (heap st3);
           next_id := next_id (heap st3);
           trace := (trace (heap st3) ++ [GlLineWidth (width (_opts (self st3)))]) ++
                    [Draw "LINE_STRIP"
                       (setitem "map_local_to_nd" (BoundMap tr) (_program (self st3)))] |};
      self := set_program
                (setitem "map_local_to_nd" (BoundMap tr) (_program (self st3)))
                (self st3) |}).
Proof.
  intros Hn Hv E1 E2 E3 Ht. destruct st as [w v]. unfold paint. run.
  cbn in Hn, Hv. rewrite Hn. cbn. rewrite Hv. cbn. rewrite E1. cbn.
  rewrite E2. cbn. rewrite E3. cbn. rewrite Ht. reflexivity.
Qed.

Ltac hook_lookup :=
  cbn; repeat (rewrite lookup_insert_ne by discriminate); rewrite lookup_insert_eq.

Ltac slot_lookup :=
  unfold slot_variable;
  rewrite ?slot_ref_other by (right; discriminate);
  rewrite slot_ref_bound by (rewrite ?lookup_alter_is_Some; assumption);
  cbn;
  repeat (rewrite lookup_insert_ne by lia); rewrite lookup_insert_eq.

(** X21: a first [paint] goes through.  On a visual without buffer whose
    [pos] is an array with at least one row and a trailing dimension other
    than 1, whose colour is fixed or an array that broadcasts, whose
    numbers all convert to [np.float32], with both components, a transform,
    live Functions and a declared [vert_post_hook] chain (all of which the
    constructor provides), [paint] returns normally: the buffer is built
    from the options, the position attribute reads this very buffer, and
    both modes follow the data. *)
Lemma first_paint_draws (st : state) (a : np.ndarray) (d : nat)
    (pc : LinePosInputComponent) (cc : LineColorInputComponent)
    (tr : Transform) (fs : list nat) :
  pos (_opts (self st)) = Some (PyArray a) ->
  nothing_to_draw (pos (_opts (self st))) = inr false ->
  np.shape_last (np.shape a) = inr d ->
  d <> 1 ->
  color_fits (_opts (self st)) = true ->
  numbers_fit (_opts (self st)) = true ->
  _vbo (self st) = None ->
  _pos_input_component (self st) = Some pc ->
  _color_input_component (self st) = Some cc ->
  transform (_opts (self st)) = Some tr ->
  is_Some (functions (heap st) !! XYInputFunc) ->
  is_Some (functions (heap st) !! XYZInputFunc) ->
  is_Some (functions (heap st) !! frag_func cc) ->
  chains (_program (self st)) !! "vert_post_hook" = Some fs ->
  exists st' b,
    paint st = (inr tt, st') /\
    _vbo (self st') = Some b /\
    data_of (_opts (self st)) (gloo.vb_data b) /\
    pos_mode (self st') = Some (if d =? 2 then Vec2Mode else Vec3Mode) /\
    local_position_attribute (heap st') (self st')
      = Some {| kind := "attribute";
                gltype := if d =? 2 then "vec2" else "vec3";
                value := if d =? 2 then BufferField b "pos" else Buffer (Some b) |} /\
    color_mode st' cc
      = Some (if color_is_array (color (_opts (self st)))
              then PerVertexColor else UniformColor).
Proof.
  intros Hp Hn Hd Hd1 Hfit Hnum Hv Hpc Hcc Htr Hxy Hxyz Hfrag Hch.
  destruct (build_vbo_succeeds _ _ _ Hp Hd Hd1 Hfit Hnum) as [st1 E1].
  pose proof (build_vbo_outcome _ _ _ E1)
    as (Ho1 & Hp1 & Hpc1 & Hcc1 & Hf1 & _ & _ & [[[e He] _] | (_ & dd & Hdd & Hv1 & Hdo)]);
    [discriminate |].
  destruct (data_of_fields _ _ _ Hdo Hp) as (Hs & Hpf & Hcf).
  destruct (shape_last_inr _ _ Hd) as [_ Hl]. rewrite Hl in Hs.
  rewrite (field_shape_whole _ _ Hd Hd1) in Hs.
  rewrite <- Hf1 in Hxy, Hxyz, Hfrag. rewrite <- Hp1 in Hch.
  rewrite <- Hpc1 in Hpc. rewrite <- Hcc1 in Hcc. rewrite <- Ho1 in Htr.
  set (b := {| gloo.vb_id := next_id (heap st); gloo.vb_data := dd |}) in *.
  unfold pos_mode, local_position_attribute, color_mode.
  destruct (Nat.eqb_spec d 2) as [-> | Hne];
    destruct (color_is_array (color (_opts (self st)))) eqn:Hca.
  - eexists _, b. split.
    { eapply paint_rebuild; [exact Hn | exact Hv | exact E1 | | |].
      - rewrite (pos_component_update _ _ Hpc). eapply pos_update_vec2; eauto.
      - erewrite color_component_update by exact Hcc.
        eapply color_update_vertex; cbn; eauto.
        now rewrite !lookup_alter_is_Some.
      - exact Htr. }
    cbn [self heap _vbo set_program _program setitem hooks functions variables].
    split; [assumption |]. split; [assumption |].
    split; [now hook_lookup |]. split.
    + hook_lookup. cbn. now slot_lookup.
    + hook_lookup. rewrite Nat.eqb_refl. cbn. now slot_lookup.
  - eexists _, b. split.
    { eapply paint_rebuild; [exact Hn | exact Hv | exact E1 | | |].
      - rewrite (pos_component_update _ _ Hpc). eapply pos_update_vec2; eauto.
      - erewrite color_component_update by exact Hcc.
        eapply color_update_uniform; cbn; eauto.
      - exact Htr. }
    cbn [self heap _vbo set_program _program setitem hooks functions variables].
    split; [assumption |]. split; [assumption |].
    split; [now hook_lookup |]. split.
    + hook_lookup. cbn. now slot_lookup.
    + hook_lookup. rewrite Nat.eqb_refl. cbn. now slot_lookup.
  - eexists _, b. split.
    { eapply paint_rebuild; [exact Hn | exact Hv | exact E1 | | |].
      - rewrite (pos_component_update _ _ Hpc). eapply pos_update_vec3; eauto.
      - erewrite color_component_update by exact Hcc.
        eapply color_update_vertex; cbn; eauto.
        now rewrite !lookup_alter_is_Some.
      - exact Htr. }
    cbn [self heap _vbo set_program _program setitem hooks functions variables].
    split; [assumption |]. split; [assumption |].
    split; [now hook_lookup |]. split.
    + hook_lookup. cbn. rewrite Hv1. now slot_lookup.
    + hook_lookup. rewrite Nat.eqb_refl. cbn. now slot_lookup.
  - eexists _, b. split.
    { eapply paint_rebuild; [exact Hn | exact Hv | exact E1 | | |].
      - rewrite (pos_component_update _ _ Hpc). eapply pos_update_vec3; eauto.
      - erewrite color_component_update by exact Hcc.
        eapply color_update_uniform; cbn; eauto.
      - exact Htr. }
    cbn [self heap _vbo set_program _program setitem hooks functions variables].
    split; [assumption |]. split; [assumption |].
    split; [now hook_lookup |]. split.
    + hook_lookup. cbn. rewrite Hv1. now slot_lookup.
    + hook_lookup. rewrite Nat.eqb_refl. cbn. now slot_lookup.
Qed.

(** ** paint: when and what it draws *)

Lemma no_draw_In (cs : list call) (prim : string) (p : ModularProgram) :
  no_draw cs -> ~ In (Draw prim p) cs.
Proof.
  unfold no_draw. rewrite forallb_forall. intros H Hin.
  apply H in Hin. discriminate Hin.
Qed.

Lemma pos_update_binds (st st' : state) (c : LinePosInputComponent)
    (b : gloo.VertexBuffer) :
  LinePosInputComponent_update c st = (inr tt, st') ->
  _vbo (self st) = Some b ->
  is_Some (functions (heap st) !! XYInputFunc) ->
  is_Some (functions (heap st) !! XYZInputFunc) ->
  exists f x,
    hooks (_program (self st')) !! "local_position" = Some (BoundFunction f) /\
    (f = XYInputFunc \/ f = XYZInputFunc) /\
    slot_ref (heap st') f (if f =? XYInputFunc then "xy_pos" else "xyz_pos")
      = Some (next_id (heap st)) /\
    variables (heap st') !! next_id (heap st) = Some x /\
    kind x = "attribute" /\
    buffer_of (value x) = Some b /\
    next_id (heap st) < next_id (heap st').
Proof.
  intros E Hb Hxy Hxyz. revert E.
  unfold LinePosInputComponent_update, vbo_getitem. run. rewrite Hb.
  destruct (_data (self st)) as [d |]; cbn; [| discriminate].
  destruct (np.getitem_shape d "pos") as [e | shp]; cbn; [discriminate |].
  destruct (np.shape_last shp) as [e | k]; cbn; [discriminate |].
  destruct (k =? 2); cbn.
  - destruct (np.has_field "pos" (gloo.vb_data b)); cbn; [| discriminate].
    intros E. injection E as <-. cbn.
    eexists XYInputFunc, _. split; [apply lookup_insert_eq |].
    split; [now left |]. cbn.
    split. { rewrite slot_ref_other by (right; discriminate). now apply slot_ref_bound. }
    split; [apply variable_stored |]. repeat split. lia.
  - intros E. injection E as <-. cbn.
    eexists XYZInputFunc, _. split; [apply lookup_insert_eq |].
    split; [now right |]. cbn.
    split; [now apply slot_ref_bound |].
    split; [apply lookup_insert_eq |]. repeat split. lia.
Qed.

Lemma color_update_keeps (st st' : state) (c : LineColorInputComponent)
    (r : exn + unit) :
  LineColorInputComponent_update c st = (r, st') ->
  hooks (_program (self st')) !! "local_position"
    = hooks (_program (self st)) !! "local_position" /\
  (forall f slot, slot <> "rgba" -> slot <> "input" -> slot <> "output" ->
     slot_ref (heap st') f slot = slot_ref (heap st) f slot) /\
  (forall y, y < next_id (heap st) ->
     variables (heap st') !! y = variables (heap st) !! y).
Proof.
  destruct st as [[fs vs n tr] v].
  unfold LineColorInputComponent_update, vbo_getitem. run.
  unfold add_callback. cbn.
  repeat (split_inner; cbn).
  all: intros E; inversion E; subst; cbn.
  all: split; [rewrite ?lookup_insert_ne by discriminate; reflexivity |].
  all: split;
    [intros g slot H1 H2 H3; rewrite ?slot_ref_other by (right; congruence); reflexivity
    | intros y Hy; rewrite ?lookup_insert_ne by lia; reflexivity].
Qed.

Lemma color_update_input (st st' : state) (c : LineColorInputComponent)
    (d : np.recarray) (b : gloo.VertexBuffer) :
  LineColorInputComponent_update c st = (inr tt, st') ->
  _data (self st) = Some d ->
  np.has_field "color" d = true ->
  _vbo (self st) = Some b ->
  is_Some (functions (heap st) !! support_func c) ->
  slot_variable (heap st') (support_func c) "input"
    = Some {| kind := "attribute"; gltype := "vec4"; value := BufferField b "color" |}.
Proof.
  intros E Hd Hf Hb Hs. revert E. destruct st as [[fs vs n tr] v]. cbn in *.
  unfold LineColorInputComponent_update, vbo_getitem. run.
  rewrite Hd. cbn. rewrite Hf. cbn. unfold add_callback. cbn. rewrite Hb.
  repeat (split_inner; cbn).
  all: intros E; inversion E; subst; cbn.
  unfold slot_variable.
  rewrite slot_ref_other by (right; discriminate).
  rewrite slot_ref_bound by (now rewrite lookup_alter_is_Some).
  cbn. apply lookup_insert_eq.
Qed.

Lemma paint_rebuild_inv (st st' : state) :
  nothing_to_draw (pos (_opts (self st))) = inr false ->
  _vbo (self st) = None ->
  paint st = (inr tt, st') ->
  exists st1 st2 st3 tr,
    _build_vbo st = (inr tt, st1) /\
    pos_input_component_update st1 = (inr tt, st2) /\
    color_input_component_update st2 = (inr tt, st3) /\
    transform (_opts (self st3)) = Some tr.
Proof.
  intros Hn Hv. destruct st as [w v]. unfold paint. run.
  cbn in Hn, Hv. rewrite Hn. cbn. rewrite Hv. cbn.
  destruct (_build_vbo _) as [[e | []] st1] eqn:E1; cbn; [intros E; discriminate E |].
  destruct (pos_input_component_update st1) as [[e | []] st2] eqn:E2; cbn;
    [intros E; discriminate E |].
  destruct (color_input_component_update st2) as [[e | []] st3] eqn:E3; cbn;
    [intros E; discriminate E |].
  destruct (transform (_opts (self st3))) as [tr |] eqn:Ht; cbn;
    [| intros E; discriminate E].
  intros _. now exists st1, st2, st3, tr.
Qed.

Lemma pos_component_inv (st st' : state) :
  pos_input_component_update st = (inr tt, st') ->
  exists c, _pos_input_component (self st) = Some c /\
            LinePosInputComponent_update c st = (inr tt, st').
Proof.
  unfold pos_input_component_update. run.
  destruct (_pos_input_component (self st)) as [c |]; cbn;
    [| intros E; discriminate E].
  intros E. now exists c.
Qed.

Lemma color_component_inv (st st' : state) :
  color_input_component_update st = (inr tt, st') ->
  exists c, _color_input_component (self st) = Some c /\
            LineColorInputComponent_update c st = (inr tt, st').
Proof.
  unfold color_input_component_update. run.
  destruct (_color_input_component (self st)) as [c |]; cbn;
    [| intros E; discriminate E].
  intros E. now exists c.
Qed.

Lemma pos_update_keeps_live (st st' : state) (c : LinePosInputComponent)
    (r : exn + unit) (f : nat) :
  LinePosInputComponent_update c st = (r, st') ->
  is_Some (functions (heap st) !! f) ->
  is_Some (functions (heap st') !! f).
Proof.
  unfold LinePosInputComponent_update, vbo_getitem. run.
  repeat (split_inner; cbn); intros E; inversion E; subst; cbn;
    rewrite ?lookup_alter_is_Some; auto.
Qed.

(** C7, as stated, fails in its last clause: the draw does not always use
    a buffer consistent with the latest options.  After per-vertex colours,
    a fixed colour and a second paint, the buffer is rebuilt without a
    [color] column, yet the program that is drawn still has the support
    function on [vert_post_hook], whose [input] attribute reads the
    [color] column of the former buffer. *)
Lemma stale_buffer_is_drawn :
  let st := after (set_data None (Some red) None) (after paint per_vertex_visual) in
  let st' := after paint st in
  reachable st /\
  _vbo (self st) = None /\
  paint st = (inr tt, st') /\
  added st st' [BuildVbo; PosUpdate; ColorUpdate; GlLineWidth one;
                Draw "LINE_STRIP" (_program (self st'))] /\
  exists b,
    _vbo (self st') = Some b /\
    gloo.vb_data b = data_u /\
    data_of (_opts (self st')) (gloo.vb_data b) /\
    chains (_program (self st')) !! "vert_post_hook"
      = Some [support_func first_component] /\
    slot_variable (heap st') (support_func first_component) "input"
      = Some {| kind := "attribute"; gltype := "vec4";
                value := BufferField buffer_c "color" |} /\
    buffer_c <> b /\
    ~ draws_from (heap st') (_program (self st')) b.
Proof.
  intros st st'.
  assert (Hch : chains (_program (self st')) !! "vert_post_hook"
                = Some [support_func first_component])
    by (vm_compute; reflexivity).
  assert (Hin : slot_variable (heap st') (support_func first_component) "input"
                = Some {| kind := "attribute"; gltype := "vec4";
                          value := BufferField buffer_c "color" |})
    by (vm_compute; reflexivity).
  split.
  { apply (reach_set_data (after paint per_vertex_visual) None (Some red) None (inr tt));
      [| vm_compute; reflexivity].
    apply (reach_paint per_vertex_visual (inr tt)); [| vm_compute; reflexivity].
    apply (reach_new imported (Some (PyArray pos_3x2)) (Some (PyArray colors_3x4)) None
             (inr tt)).
    vm_compute. reflexivity. }
  split; [vm_compute; reflexivity |].
  split; [vm_compute; reflexivity |].
  split; [vm_compute; reflexivity |].
  exists {| gloo.vb_id := 9; gloo.vb_data := data_u |}.
  split; [vm_compute; reflexivity |].
  split; [reflexivity |].
  split; [exists pos_3x2; vm_compute; repeat split |].
  split; [exact Hch |].
  split; [exact Hin |].
  split; [discriminate |].
  intros H.
  specialize (H (support_func first_component) "input"
                {| kind := "attribute"; gltype := "vec4";
                   value := BufferField buffer_c "color" |} buffer_c).
  assert (E : buffer_c = {| gloo.vb_id := 9; gloo.vb_data := data_u |}).
  { apply H; [| exact Hin | reflexivity].
    right. exists "vert_post_hook", [support_func first_component].
    split; [exact Hch |]. apply list_elem_of_In. now left. }
  discriminate E.
Qed.

(** C7, amended: [paint] returns without a draw when the stored [pos] is
    [None] or has length 0, and issues no draw when it raises.  When it
    returns normally with something to draw, it has issued the draw, as its
    last call, with [_vbo] set to a buffer derived from the current
    options: either the buffer that was already there, or, when [_vbo] was
    [None], one built in this very call, with [_build_vbo] and both
    components' [update()] run before the draw.  After such a rebuild the
    attribute of the Function on [local_position] reads the new buffer, and
    so does the [input] attribute of the colour component's support
    function when the buffer has a [color] column.  The buffer invariant
    carries over to the state [paint] leaves. *)
Theorem paint_draws_only_with_vbo (st st' : state) (r : exn + unit) :
  consistent st ->
  is_Some (functions (heap st) !! XYInputFunc) ->
  is_Some (functions (heap st) !! XYZInputFunc) ->
  paint st = (r, st') ->
  consistent st' /\
  ((pos (_opts (self st)) = None \/
    exists v, pos (_opts (self st)) = Some v /\ py_len v = inr 0) ->
   r = inr tt /\ st' = st) /\
  (forall e, r = inl e -> exists cs, added st st' cs /\ no_draw cs) /\
  (r = inr tt ->
   nothing_to_draw (pos (_opts (self st))) = inr false ->
   exists b,
     _vbo (self st') = Some b /\
     data_of (_opts (self st')) (gloo.vb_data b) /\
     ((_vbo (self st) = Some b /\
       added st st' [GlLineWidth (width (_opts (self st)));
                     Draw "LINE_STRIP" (_program (self st'))]) \/
      (_vbo (self st) = None /\
       added st st' [BuildVbo; PosUpdate; ColorUpdate;
                     GlLineWidth (width (_opts (self st)));
                     Draw "LINE_STRIP" (_program (self st'))] /\
       (exists x,
          local_position_attribute (heap st') (self st') = Some x /\
          kind x = "attribute" /\
          buffer_of (value x) = Some b) /\
       (forall c,
          _color_input_component (self st) = Some c ->
          is_Some (functions (heap st) !! support_func c) ->
          np.has_field "color" (gloo.vb_data b) = true ->
          slot_variable (heap st') (support_func c) "input"
            = Some {| kind := "attribute"; gltype := "vec4";
                      value := BufferField b "color" |})))).
Proof.
  intros Hc Hxy Hxyz E.
  pose proof (consistent_paint _ _ _ Hc E) as Hc'.
  split; [exact Hc' |].
  pose proof (paint_cases _ _ _ E) as (Ho & cs & Ha & Hcases).
  split; [| split].
  - intros Hn. apply nothing_to_draw_true in Hn.
    destruct Hcases as [(-> & _ & -> & _) | [(_ & Hn' & _) | (_ & Hn' & _)]].
    + now split.
    + contradiction.
    + congruence.
  - intros e ->. exists cs. split; [assumption |].
    destruct Hcases as [(Hr & _) | [(_ & _ & Hnd & _) | (Hr & _)]];
      [discriminate Hr | assumption | discriminate Hr].
  - intros -> Hn.
    destruct Hcases
      as [(_ & Hn' & _) | [([e He] & _) | (_ & _ & b & tr & Hv & _ & _ & Hw)]];
      [congruence | discriminate He |].
    exists b. split; [assumption |]. split; [now apply Hc' |].
    destruct Hw as [[Hb ->] | (Hb & Hdo & ->)]; [left; now split | right].
    split; [assumption |]. split; [assumption |].
    destruct (paint_rebuild_inv _ _ Hn Hb E) as (st1 & st2 & st3 & tr' & E1 & E2 & E3 & Ht).
    pose proof (paint_rebuild _ _ _ _ _ Hn Hb E1 E2 E3 Ht) as E'.
    rewrite E in E'. injection E' as ->.
    pose proof (build_vbo_outcome _ _ _ E1)
      as (_ & _ & Hpc1 & Hcc1 & Hf1 & _ & _ & [[[e He] _] | (_ & dd & Hdd & Hv1 & _)]);
      [discriminate He |].
    cbn [self heap _vbo set_program] in Hv.
    pose proof (pos_update_outcome _ _ _ E2) as (_ & Hd2 & Hv2 & _ & Hcc2 & _).
    pose proof (color_update_outcome _ _ _ E3) as (_ & _ & Hv3 & _).
    assert (Hb1 : _vbo (self st1) = Some b) by congruence.
    assert (Hbd : gloo.vb_data b = dd).
    { rewrite Hv1 in Hb1. injection Hb1 as <-. reflexivity. }
    apply pos_component_inv in E2 as (pc & _ & E2).
    apply color_component_inv in E3 as (cc & Hcc & E3).
    rewrite <- Hf1 in Hxy, Hxyz.
    destruct (pos_update_binds _ _ _ _ E2 Hb1 Hxy Hxyz)
      as (f & x & Hh & Hf & Hs & Hx & Hk & Hbx & Hlt).
    destruct (color_update_keeps _ _ _ _ E3) as (Hh3 & Hs3 & Hx3).
    split.
    + exists x. unfold local_position_attribute.
      cbn [self heap set_program _program setitem hooks].
      rewrite lookup_insert_ne by discriminate. rewrite Hh3, Hh.
      unfold slot_variable, slot_ref. cbn [functions variables].
      fold (slot_ref (heap st3) f (if f =? XYInputFunc then "xy_pos" else "xyz_pos")).
      rewrite Hs3, Hs by (destruct (f =? XYInputFunc); discriminate).
      rewrite Hx3 by exact Hlt. now rewrite Hx.
    + intros c Hcomp Hlive Hcf.
      assert (c = cc) as -> by congruence.
      unfold slot_variable, slot_ref. cbn [heap functions variables].
      fold (slot_ref (heap st3) (support_func cc) "input").
      fold (slot_variable (heap st3) (support_func cc) "input").
      apply (color_update_input st2 st3 cc dd b E3); try congruence.
      apply (pos_update_keeps_live st1 st2 pc (inr tt)); [exact E2 | congruence].
Qed.

Lemma paint_draws_only_with_vbo_witness :
  consistent (after paint red_line) /\
  ((pos (_opts (self red_line)) = None \/
    exists v, pos (_opts (self red_line)) = Some v /\ py_len v = inr 0) ->
   @inr exn unit tt = inr tt /\ after paint red_line = red_line) /\
  (forall e, @inr exn unit tt = inl e ->
             exists cs, added red_line (after paint red_line) cs /\ no_draw cs) /\
  (@inr exn unit tt = inr tt ->
   nothing_to_draw (pos (_opts (self red_line))) = inr false ->
   exists b,
     _vbo (self (after paint red_line)) = Some b /\
     data_of (_opts (self (after paint red_line))) (gloo.vb_data b) /\
     ((_vbo (self red_line) = Some b /\
       added red_line (after paint red_line)
         [GlLineWidth (width (_opts (self red_line)));
          Draw "LINE_STRIP" (_program (self (after paint red_line)))]) \/
      (_vbo (self red_line) = None /\
       added red_line (after paint red_line)
         [BuildVbo; PosUpdate; ColorUpdate;
          GlLineWidth (width (_opts (self red_line)));
          Draw "LINE_STRIP" (_program (self (after paint red_line)))] /\
       (exists x,
          local_position_attribute (heap (after paint red_line))
            (self (after paint red_line)) = Some x /\
          kind x = "attribute" /\
          buffer_of (value x) = Some b) /\
       (forall c,
          _color_input_component (self red_line) = Some c ->
          is_Some (functions (heap red_line) !! support_func c) ->
          np.has_field "color" (gloo.vb_data b) = true ->
          slot_variable (heap (after paint red_line)) (support_func c) "input"
            = Some {| kind := "attribute"; gltype := "vec4";
                      value := BufferField b "color" |})))).
Proof.
  apply (paint_draws_only_with_vbo red_line (after paint red_line) (inr tt)).
  - intros b Hb. vm_compute in Hb. discriminate Hb.
  - vm_compute. eexists. reflexivity.
  - vm_compute. eexists. reflexivity.
  - vm_compute. reflexivity.
Defined.

(** C8: every draw that [paint] issues is the last call of that [paint], is
    preceded by [glLineWidth] with the stored width, uses the primitive
    [LINE_STRIP] and nothing else, and sees a program whose
    [map_local_to_nd] hook holds [shader_map()] of the stored transform. *)
Theorem paint_draw_call (st st' : state) (r : exn + unit) (cs : list call)
    (prim : string) (p : ModularProgram) :
  paint st = (r, st') ->
  added st st' cs ->
  In (Draw prim p) cs ->
  prim = "LINE_STRIP" /\
  p = _program (self st') /\
  exists tr pre,
    transform (_opts (self st)) = Some tr /\
    hooks p !! "map_local_to_nd" = Some (BoundMap tr) /\
    cs = pre ++ [GlLineWidth (width (_opts (self st))); Draw "LINE_STRIP" p] /\
    no_draw pre.
Proof.
  intros E Ha Hin.
  apply paint_cases in E as (_ & cs0 & Ha0 & Hcases).
  unfold added in Ha, Ha0. rewrite Ha in Ha0. apply app_inv_head in Ha0. subst cs0.
  destruct Hcases
    as [(_ & _ & _ & ->) | [(_ & _ & Hnd & _) | (_ & _ & b & tr & _ & Ht & Hh & Hw)]].
  - destruct Hin.
  - now apply no_draw_In in Hin.
  - destruct Hw as [[_ ->] | (_ & _ & ->)]; cbn in Hin.
    + destruct Hin as [H | [H | []]]; [discriminate |]. injection H as <- <-.
      repeat split. exists tr, []. repeat split; assumption.
    + destruct Hin as [H | [H | [H | [H | [H | []]]]]]; try discriminate.
      injection H as <- <-. repeat split.
      exists tr, [BuildVbo; PosUpdate; ColorUpdate]. repeat split; assumption.
Qed.

Lemma paint_draw_call_witness :
  "LINE_STRIP" = "LINE_STRIP" /\
  _program (self (after paint red_line)) = _program (self (after paint red_line)) /\
  exists tr pre,
    transform (_opts (self red_line)) = Some tr /\
    hooks (_program (self (after paint red_line))) !! "map_local_to_nd"
      = Some (BoundMap tr) /\
    [BuildVbo; PosUpdate; ColorUpdate; GlLineWidth (PyNum (SInt 2));
     Draw "LINE_STRIP" (_program (self (after paint red_line)))]
    = pre ++ [GlLineWidth (width (_opts (self red_line)));
              Draw "LINE_STRIP" (_program (self (after paint red_line)))] /\
    no_draw pre.
Proof.
  apply (paint_draw_call red_line (after paint red_line) (inr tt)
           [BuildVbo; PosUpdate; ColorUpdate; GlLineWidth (PyNum (SInt 2));
            Draw "LINE_STRIP" (_program (self (after paint red_line)))]
           "LINE_STRIP" (_program (self (after paint red_line)))).
  - vm_compute. reflexivity.
  - vm_compute. reflexivity.
  - simpl. do 4 right. left. reflexivity.
Defined.

(** ** The two end-to-end runs of the specification *)

Example red_line_end_to_end :
  let st := after paint red_line in
  fst (paint red_line) = inr tt /\
  added red_line st
    [BuildVbo; PosUpdate; ColorUpdate; GlLineWidth (PyNum (SInt 2));
     Draw "LINE_STRIP" (_program (self st))] /\
  option_map (fun b => np.ra_shape (gloo.vb_data b)) (_vbo (self st)) = Some [3] /\
  pos_mode (self st) = Some Vec2Mode /\
  color_mode st first_component = Some UniformColor /\
  slot_variable (heap st) (frag_func first_component) "rgba"
    = Some {| kind := "uniform"; gltype := "vec4";
              value := Array {| np.shape := [4];
                                np.elems := ints [1; 0; 0; 1]%Z |} |} /\
  varyings (heap st) = [].
Proof. vm_compute. repeat split. Qed.

Example two_colored_line_end_to_end :
  let st := after paint two_colored_line in
  fst (paint two_colored_line) = inr tt /\
  option_map (fun b => np.ra_shape (gloo.vb_data b)) (_vbo (self st)) = Some [2] /\
  pos_mode (self st) = Some Vec3Mode /\
  color_mode st first_component = Some PerVertexColor /\
  length (varyings (heap st)) = 1 /\
  chains (_program (self st)) !! "vert_post_hook"
    = Some [support_func first_component] /\
  slot_ref (heap st) (support_func first_component) "output"
    = slot_ref (heap st) (frag_func first_component) "rgba".
Proof. vm_compute. repeat split. Qed.

(** Each repaint in per-vertex mode appends the support function once more. *)
Example support_function_is_appended_again :
  let st := after paint (after (set_data None None None) (after paint two_colored_line)) in
  chains (_program (self st)) !! "vert_post_hook"
    = Some [support_func first_component; support_func first_component].
Proof. vm_compute. reflexivity. Qed.

(** * Further properties of the code *)

(** ** set_data and the constructor *)

Lemma set_data_result (st : state) (p c w : option pyval) :
  set_data p c w st =
  (inr tt,
   {| heap := {| functions := functions (heap st);
                 variables := variables (heap st);
                 next_id := next_id (heap st);
                 trace := trace (heap st) ++ [EventsUpdate] |};
      self := set__vbo None
                (set_opts
                   {| pos := or_else p (pos (_opts (self st)));
                      color := default (color (_opts (self st))) c;
                      width := default (width (_opts (self st))) w;
                      transform := transform (_opts (self st)) |}
                   (self st)) |}).
Proof.
  destruct st as [h v]. destruct v as [go o pr pc cc d b].
  destruct o as [op oc ow ot]. destruct p, c, w; reflexivity.
Qed.

(** X1: two [set_data] calls in a row leave the visual as one call would
    whose arguments are those of the second call, completed by those of the
    first where the second passes [None]; two update events are emitted
    instead of one. *)
Theorem set_data_twice (st : state) (p1 c1 w1 p2 c2 w2 : option pyval) :
  self (after (set_data p2 c2 w2) (after (set_data p1 c1 w1) st)) =
  self (after (set_data (or_else p2 p1) (or_else c2 c1) (or_else w2 w1)) st) /\
  trace (heap (after (set_data p2 c2 w2) (after (set_data p1 c1 w1) st))) =
  trace (heap st) ++ [EventsUpdate; EventsUpdate].
Proof.
  unfold after. rewrite !set_data_result. cbn. split.
  - destruct p1, p2, c1, c2, w1, w2; reflexivity.
  - now rewrite <- app_assoc.
Qed.

(** X2: [LineVisual(pos, color, width)] never raises, whatever the heap and
    the arguments.  The new visual stores [pos] as given, [(1, 1, 1, 1)] and
    [1] where [color] and [width] are [None], and a [NullTransform]; it has
    no buffer and no structured array yet, holds both components, binds no
    hook and declares both chains empty.  Construction allocates exactly
    two objects, the fragment and the support Function of the colour
    component, creates no variable and emits four update events. *)
Theorem constructor_defaults (w : world) (p c wd : option pyval) :
  exists st,
    LineVisual_new w p c wd = (inr tt, st) /\
    _opts (self st) = {| pos := p; color := default white c;
                         width := default one wd;
                         transform := Some NullTransform |} /\
    _vbo (self st) = None /\
    _data (self st) = None /\
    _pos_input_component (self st) = Some LinePosInputComponent_new /\
    _color_input_component (self st) =
      Some {| frag_func := next_id w; support_func := S (next_id w) |} /\
    hooks (_program (self st)) = ∅ /\
    chains (_program (self st)) !! "vert_post_hook" = Some [] /\
    chains (_program (self st)) !! "frag_post_hook" = Some [] /\
    functions (heap st) =
      <[S (next_id w) := {| code := support_func_code; bindings := ∅ |}]>
        (<[next_id w := {| code := frag_func_code; bindings := ∅ |}]> (functions w)) /\
    variables (heap st) = variables w /\
    next_id (heap st) = S (S (next_id w)) /\
    trace (heap st) =
      trace w ++ [EventsUpdate; EventsUpdate; EventsUpdate; EventsUpdate].
Proof.
  remember (LineVisual_new w p c wd) as res eqn:E.
  lazy beta iota zeta delta
    [LineVisual_new __init__ transform_setter LineColorInputComponent_init
     bind ret raise gets modify lift on_heap update_self events_update log alloc
     store_function Function_new set_program set_opts set_transform set__vbo
     add_chain ModularProgram_new blank
     heap self _opts _program _pos_input_component _color_input_component
     _data _vbo _gl_options functions variables next_id trace
     vert frag hooks chains] in E.
  rewrite set_data_result in E. subst res. eexists. split; [reflexivity |].
  cbn [heap self _opts _program _pos_input_component _color_input_component
       _data _vbo functions variables next_id trace pos color width transform
       set__vbo set_opts hooks chains].
  split; [destruct p, c, wd; reflexivity |].
  do 5 (split; [reflexivity |]).
  split; [rewrite lookup_insert_ne by discriminate; apply lookup_insert_eq |].
  split; [apply lookup_insert_eq |].
  do 3 (split; [reflexivity |]).
  now rewrite <- !app_assoc.
Qed.

(** ** _build_vbo: failures *)

(** X3: [_build_vbo] needs a position array with at least one axis.  When
    the stored [pos] is [None], a number or a tuple it raises
    [AttributeError], when it is an array of shape [()] it raises
    [IndexError]; in both cases before it assigns anything, so the visual is
    left exactly as it was. *)
Theorem build_vbo_needs_a_shaped_array (st : state) :
  match pos (_opts (self st)) with
  | Some (PyArray a) => np.shape a = []
  | _ => True
  end ->
  exists e st1,
    _build_vbo st = (inl e, st1) /\
    e = match pos (_opts (self st)) with
        | Some (PyArray _) => IndexError
        | _ => AttributeError
        end /\
    self st1 = self st /\
    functions (heap st1) = functions (heap st) /\
    variables (heap st1) = variables (heap st).
Proof.
  destruct st as [w v]. destruct v as [go o p pc cc d b].
  destruct o as [ps cl wd tr]. cbn [pos _opts self].
  unfold _build_vbo. run.
  destruct ps as [[s | xs | n | a] |]; cbn; intros H.
  1, 2, 3, 5: eexists _, _; split; [reflexivity |]; repeat split.
  rewrite H. cbn. eexists _, _. split; [reflexivity |]. repeat split.
Qed.

Lemma build_vbo_needs_a_shaped_array_witness :
  exists e st1,
    _build_vbo (fresh_visual (Some red) None None) = (inl e, st1) /\
    e = AttributeError /\
    self st1 = self (fresh_visual (Some red) None None) /\
    functions (heap st1) = functions (heap (fresh_visual (Some red) None None)) /\
    variables (heap st1) = variables (heap (fresh_visual (Some red) None None)).
Proof.
  apply (build_vbo_needs_a_shaped_array (fresh_visual (Some red) None None)).
  vm_compute. exact I.
Defined.

Lemma build_vbo_result (st : state) (a : np.ndarray) (d : nat) :
  pos (_opts (self st)) = Some (PyArray a) ->
  np.shape_last (np.shape a) = inr d -> d <> 1 ->
  exists st1 dd,
    _build_vbo st =
    (if np.castable a
     then if color_fits (_opts (self st))
          then if numbers_fit (_opts (self st)) then inr tt else inl OverflowError
          else inl ValueError
     else inl OverflowError, st1) /\
    _data (self st1) = Some dd /\
    np.has_field "pos" dd = true /\
    np.has_field "color" dd = color_is_array (color (_opts (self st))).
Proof.
  destruct st as [w v]. destruct v as [go o p pc cc dt b].
  destruct o as [ps cl wd tr]. cbn [pos color _opts self]. intros -> Hd Hn.
  pose proof (field_shape_whole _ _ Hd Hn) as Hw.
  unfold color_fits, numbers_fit. cbn [pos color].
  destruct (color_is_array cl) eqn:Hc.
  - destruct (color_is_array_shape _ Hc) as (c & -> & Hc2).
    pose proof Hc as Hc'. unfold color_is_array in Hc'. rewrite Hc'.
    destruct (np.shape_last (np.shape c)) as [e | kc] eqn:Hkc.
    { unfold np.ndim in Hc2. destruct (np.shape c); [cbn in Hc2; lia | discriminate]. }
    pose proof Hkc as Hkc'. apply shape_last_inr in Hkc' as [_ Hkc']. rewrite Hkc'.
    unfold _build_vbo. run. rewrite Hd. cbn. rewrite Hc. cbn. rewrite Hkc. cbn.
    unfold np_array. rewrite setitem_pos_color, Hw, can_assign_refl.
    destruct (np.castable a); cbn; [| eexists _, _; repeat split].
    rewrite setitem_color.
    destruct (np.can_assign (np.shape c) _); cbn; [| eexists _, _; repeat split].
    destruct (np.castable c); cbn; eexists _, _; repeat split.
  - assert (Hf : match cl with
                 | PyArray c =>
                     if 1 <? np.ndim c
                     then np.can_assign (np.shape c)
                            (np.field_shape (np.shape_init (np.shape a))
                               (List.last (np.shape c) 0))
                     else true
                 | _ => true
                 end = true).
    { destruct cl as [s | xs | n | c]; try reflexivity.
      unfold color_is_array in Hc. now rewrite Hc. }
    assert (Hq : match cl with
                 | PyArray c => if 1 <? np.ndim c then np.castable c else true
                 | _ => true
                 end = true).
    { destruct cl as [s | xs | n | c]; try reflexivity.
      unfold color_is_array in Hc. now rewrite Hc. }
    rewrite Hf, Hq, andb_true_r.
    unfold _build_vbo. run. rewrite Hd. cbn. rewrite Hc. cbn.
    unfold np_array. rewrite setitem_pos, Hw, can_assign_refl.
    destruct (np.castable a); cbn; eexists _, _; repeat split.
Qed.

(** X4: for a position array whose trailing dimension is not 1,
    [_build_vbo] returns normally exactly when the colour is fixed or is an
    array that broadcasts onto the vertices, and every number of the
    arrays converts to [np.float32].  It raises [OverflowError] while
    filling the [pos] column when the position array holds an int too
    large for a float, else [ValueError] while filling the [color] column
    when the colour array does not broadcast, else [OverflowError] when
    that array holds such an int.  On each failure [_vbo] keeps its old
    value, but [_data] has already been replaced by the new array. *)
Theorem build_vbo_succeeds_iff_color_fits (st : state) (a : np.ndarray) (d : nat) :
  pos (_opts (self st)) = Some (PyArray a) ->
  np.shape_last (np.shape a) = inr d ->
  d <> 1 ->
  ((exists st1, _build_vbo st = (inr tt, st1)) <->
   color_fits (_opts (self st)) = true /\ numbers_fit (_opts (self st)) = true) /\
  exists st1 dd,
    _build_vbo st =
    (if np.castable a
     then if color_fits (_opts (self st))
          then if numbers_fit (_opts (self st)) then inr tt else inl OverflowError
          else inl ValueError
     else inl OverflowError, st1) /\
    _opts (self st1) = _opts (self st) /\
    _data (self st1) = Some dd /\
    np.has_field "pos" dd = true /\
    np.has_field "color" dd = color_is_array (color (_opts (self st))) /\
    (color_fits (_opts (self st)) && numbers_fit (_opts (self st)) = false ->
     _vbo (self st1) = _vbo (self st)).
Proof.
  intros Hp Hd Hn.
  destruct (build_vbo_result _ _ _ Hp Hd Hn) as (st1 & dd & E & Hdd & Hpf & Hcf).
  assert (Hnum : np.castable a = false -> numbers_fit (_opts (self st)) = false).
  { intros H. unfold numbers_fit. now rewrite Hp, H. }
  split.
  - split.
    + intros [st2 E2]. rewrite E2 in E.
      destruct (np.castable a), (color_fits (_opts (self st))),
        (numbers_fit (_opts (self st))); try discriminate E; now split.
    + intros [Hf Hq]. now apply (build_vbo_succeeds st a d).
  - exists st1, dd. split; [exact E |].
    pose proof (build_vbo_outcome _ _ _ E) as (Ho & _ & _ & _ & _ & _ & _ & Hcases).
    split; [exact Ho |]. split; [exact Hdd |]. split; [exact Hpf |].
    split; [exact Hcf |]. intros Hfalse.
    destruct Hcases as [[_ Hv] | [Hr _]]; [exact Hv |].
    destruct (np.castable a) eqn:Ha.
    + destruct (color_fits (_opts (self st))); [| discriminate Hr].
      destruct (numbers_fit (_opts (self st))); discriminate.
    + discriminate Hr.
Qed.

Lemma build_vbo_succeeds_iff_color_fits_witness :
  let st := fresh_visual (Some (PyArray pos_3x2)) (Some (PyArray colors_2x4)) None in
  ((exists st1, _build_vbo st = (inr tt, st1)) <->
   color_fits (_opts (self st)) = true /\ numbers_fit (_opts (self st)) = true) /\
  exists st1 dd,
    _build_vbo st =
    (if np.castable pos_3x2
     then if color_fits (_opts (self st))
          then if numbers_fit (_opts (self st)) then inr tt else inl OverflowError
          else inl ValueError
     else inl OverflowError, st1) /\
    _opts (self st1) = _opts (self st) /\
    _data (self st1) = Some dd /\
    np.has_field "pos" dd = true /\
    np.has_field "color" dd = color_is_array (color (_opts (self st))) /\
    (color_fits (_opts (self st)) && numbers_fit (_opts (self st)) = false ->
     _vbo (self st1) = _vbo (self st)).
Proof.
  apply (build_vbo_succeeds_iff_color_fits
           (fresh_visual (Some (PyArray pos_3x2)) (Some (PyArray colors_2x4)) None)
           pos_3x2 2).
  - reflexivity.
  - reflexivity.
  - lia.
Defined.

(** An int too large for a float in the position array, as in
    [np.array([[10**400, 0], [1, 1]], dtype=object)]: the build fails. *)
Example huge_int_overflows :
  let st := fresh_visual (Some (PyArray pos_huge)) None None in
  numbers_fit (_opts (self st)) = false /\
  fst (_build_vbo st) = inl OverflowError /\
  fst (paint st) = inl OverflowError /\
  _vbo (self (after paint st)) = None /\
  trace (heap (after paint st)) = trace (heap st) ++ [BuildVbo].
Proof. vm_compute. repeat split. Qed.

(** [np.array((1, 0.5, 0))] holds three floats, [np.array((1, 0, 0))] three
    ints. *)
Example mixed_tuple_becomes_floats :
  np.elems (np_array (PyTuple [SInt 1; SFloat (Qmake 1 2); SInt 0]))
    = [SFloat (Qmake 1 1); SFloat (Qmake 1 2); SFloat (Qmake 0 1)] /\
  np.elems (np_array (PyTuple (ints [1; 0; 0]%Z))) = ints [1; 0; 0]%Z.
Proof. vm_compute. split; reflexivity. Qed.

(** Two colours for three vertices: the build fails. *)
Example two_colors_for_three_vertices :
  let st := fresh_visual (Some (PyArray pos_3x2)) (Some (PyArray colors_2x4)) None in
  color_fits (_opts (self st)) = false /\
  fst (paint st) = inl ValueError /\
  _vbo (self (after paint st)) = None /\
  trace (heap (after paint st)) = trace (heap st) ++ [BuildVbo].
Proof. vm_compute. repeat split. Qed.

(** ** paint: caching, invalidation and failures *)

Lemma paint_cached (st : state) (b : gloo.VertexBuffer) (tr : Transform) :
  nothing_to_draw (pos (_opts (self st))) = inr false ->
  _vbo (self st) = Some b ->
  transform (_opts (self st)) = Some tr ->
  paint st =
  (inr tt,
   {| heap :=
        {| functions := functions (heap st);
           variables := variables (heap st);
           next_id := next_id (heap st);
           trace := (trace (heap st) ++ [GlLineWidth (width (_opts (self st)))]) ++
                    [Draw "LINE_STRIP"
                       (setitem "map_local_to_nd" (BoundMap tr) (_program (self st)))] |};
      self := set_program
                (setitem "map_local_to_nd" (BoundMap tr) (_program (self st)))
                (self st) |}).
Proof.
  intros Hn Hv Ht. destruct st as [w v]. unfold paint. run.
  cbn in Hn, Hv, Ht. rewrite Hn. cbn. rewrite Hv. cbn. rewrite Ht. reflexivity.
Qed.

Lemma setitem_same (p : ModularProgram) (name : string) (x : bound) :
  hooks p !! name = Some x -> setitem name x p = p.
Proof.
  intros H. destruct p as [vs fs hk ch]. cbn in *.
  unfold setitem. cbn. now rewrite insert_id.
Qed.

Lemma rebind_same (v : LineVisual) (name : string) (x : bound) :
  hooks (_program v) !! name = Some x ->
  set_program (setitem name x (_program v)) v = v.
Proof.
  intros H. rewrite (setitem_same _ _ _ H). now destruct v.
Qed.

(** X5: a [paint] that follows a [paint] which drew, with nothing changed in
    between, draws again from the cached buffer.  It rebuilds nothing and
    runs no component update: the visual is left exactly as it was, no
    Function or variable object is created or changed, and the only calls
    are [glLineWidth] and the draw. *)
Theorem repaint_uses_cached_buffer (st st1 : state) :
  paint st = (inr tt, st1) ->
  nothing_to_draw (pos (_opts (self st))) = inr false ->
  exists st2,
    paint st1 = (inr tt, st2) /\
    self st2 = self st1 /\
    functions (heap st2) = functions (heap st1) /\
    variables (heap st2) = variables (heap st1) /\
    next_id (heap st2) = next_id (heap st1) /\
    added st1 st2 [GlLineWidth (width (_opts (self st1)));
                   Draw "LINE_STRIP" (_program (self st1))].
Proof.
  intros E Hn. apply paint_cases in E as (Ho & cs & _ & Hcases).
  destruct Hcases
    as [(_ & Hn' & _) | [([e He] & _) | (_ & _ & b & tr & Hv & Ht & Hh & _)]];
    [congruence | discriminate |].
  rewrite <- Ho in Hn, Ht.
  eexists. split; [now apply (paint_cached st1 b tr) |].
  rewrite (rebind_same _ _ _ Hh), (setitem_same _ _ _ Hh). unfold added. cbn.
  repeat split. now rewrite <- app_assoc.
Qed.

Lemma repaint_uses_cached_buffer_witness :
  exists st2,
    paint (after paint red_line) = (inr tt, st2) /\
    self st2 = self (after paint red_line) /\
    functions (heap st2) = functions (heap (after paint red_line)) /\
    variables (heap st2) = variables (heap (after paint red_line)) /\
    next_id (heap st2) = next_id (heap (after paint red_line)) /\
    added (after paint red_line) st2
      [GlLineWidth (width (_opts (self (after paint red_line))));
       Draw "LINE_STRIP" (_program (self (after paint red_line)))].
Proof.
  apply (repaint_uses_cached_buffer red_line (after paint red_line)).
  - vm_compute. reflexivity.
  - reflexivity.
Defined.

(** X6: after [set_data], whatever its arguments (all [None] included), a
    [paint] that draws has rebuilt the buffer first: its calls are
    [_build_vbo], the two component updates, [glLineWidth] and the draw, in
    this order. *)
Theorem set_data_forces_rebuild (st st2 : state) (p c w : option pyval)
    (r : exn + unit) (cs : list call) (prim : string) (pr : ModularProgram) :
  paint (after (set_data p c w) st) = (r, st2) ->
  added (after (set_data p c w) st) st2 cs ->
  In (Draw prim pr) cs ->
  cs = [BuildVbo; PosUpdate; ColorUpdate;
        GlLineWidth (width (_opts (self st2)));
        Draw "LINE_STRIP" (_program (self st2))].
Proof.
  intros E Ha Hin.
  assert (Hv : _vbo (self (after (set_data p c w) st)) = None)
    by (unfold after; now rewrite set_data_result).
  apply paint_cases in E as (Ho & cs0 & Ha0 & Hcases).
  unfold added in Ha, Ha0. rewrite Ha in Ha0. apply app_inv_head in Ha0. subst cs0.
  destruct Hcases
    as [(_ & _ & _ & ->) | [(_ & _ & Hnd & _) | (_ & _ & b & tr & _ & _ & _ & Hw)]].
  - destruct Hin.
  - now apply no_draw_In in Hin.
  - destruct Hw as [[Hb _] | (_ & _ & ->)]; [congruence |]. now rewrite Ho.
Qed.

Lemma set_data_forces_rebuild_witness :
  let st := after (set_data None None None) (after paint red_line) in
  [BuildVbo; PosUpdate; ColorUpdate; GlLineWidth (PyNum (SInt 2));
   Draw "LINE_STRIP" (_program (self (after paint st)))]
  = [BuildVbo; PosUpdate; ColorUpdate;
     GlLineWidth (width (_opts (self (after paint st))));
     Draw "LINE_STRIP" (_program (self (after paint st)))].
Proof.
  apply (set_data_forces_rebuild (after paint red_line)
           (after paint (after (set_data None None None) (after paint red_line)))
           None None None (inr tt)
           [BuildVbo; PosUpdate; ColorUpdate; GlLineWidth (PyNum (SInt 2));
            Draw "LINE_STRIP"
              (_program (self (after paint
                 (after (set_data None None None) (after paint red_line)))))]
           "LINE_STRIP"
           (_program (self (after paint
              (after (set_data None None None) (after paint red_line)))))).
  - vm_compute. reflexivity.
  - vm_compute. reflexivity.
  - cbn [In]. do 4 right. left. reflexivity.
Defined.

(** X7: assigning the [transform] property does not invalidate the buffer.
    After a [paint] that drew, a new transform and another [paint], the
    second draw comes without any rebuild or component update and sees the
    new transform's [shader_map()] on [map_local_to_nd]; the buffer is the
    same object. *)
Theorem transform_change_needs_no_rebuild (st st1 : state) (tr' : Transform) :
  paint st = (inr tt, st1) ->
  nothing_to_draw (pos (_opts (self st))) = inr false ->
  exists st3,
    paint (after (transform_setter (Some tr')) st1) = (inr tt, st3) /\
    added (after (transform_setter (Some tr')) st1) st3
      [GlLineWidth (width (_opts (self st1)));
       Draw "LINE_STRIP" (_program (self st3))] /\
    hooks (_program (self st3)) !! "map_local_to_nd" = Some (BoundMap tr') /\
    _vbo (self st3) = _vbo (self st1) /\
    functions (heap st3) = functions (heap st1) /\
    variables (heap st3) = variables (heap st1).
Proof.
  intros E Hn. apply paint_cases in E as (Ho & cs & _ & Hcases).
  destruct Hcases
    as [(_ & Hn' & _) | [([e He] & _) | (_ & _ & b & tr & Hv & _ & _ & _)]];
    [congruence | discriminate |].
  rewrite <- Ho in Hn.
  eexists. split.
  { apply (paint_cached _ b tr'); [exact Hn | exact Hv | reflexivity]. }
  unfold added. cbn. split; [now rewrite <- !app_assoc |].
  split; [apply lookup_insert_eq |]. repeat split.
Qed.

Lemma transform_change_needs_no_rebuild_witness :
  exists st3,
    paint (after (transform_setter (Some (UserTransform 7))) (after paint red_line))
      = (inr tt, st3) /\
    added (after (transform_setter (Some (UserTransform 7))) (after paint red_line)) st3
      [GlLineWidth (width (_opts (self (after paint red_line))));
       Draw "LINE_STRIP" (_program (self st3))] /\
    hooks (_program (self st3)) !! "map_local_to_nd"
      = Some (BoundMap (UserTransform 7)) /\
    _vbo (self st3) = _vbo (self (after paint red_line)) /\
    functions (heap st3) = functions (heap (after paint red_line)) /\
    variables (heap st3) = variables (heap (after paint red_line)).
Proof.
  apply (transform_change_needs_no_rebuild red_line (after paint red_line)
           (UserTransform 7)).
  - vm_compute. reflexivity.
  - reflexivity.
Defined.

(** X8: [paint] on a stored [pos] that has no length, a number or an array
    of shape [()], raises [TypeError] at its first test and leaves the
    visual and the heap, trace included, exactly as they were. *)
Theorem paint_unsized_pos_raises (st : state) (v : pyval) (e : exn) :
  pos (_opts (self st)) = Some v ->
  py_len v = inl e ->
  paint st = (inl TypeError, st) /\ e = TypeError.
Proof.
  intros Hp Hl. destruct st as [w vis]. unfold paint. run. cbn in Hp.
  rewrite Hp. unfold nothing_to_draw. rewrite Hl. cbn.
  destruct v as [s | xs | n | a]; cbn in Hl.
  - injection Hl as <-. now split.
  - discriminate Hl.
  - destruct (np.shape n); [injection Hl as <-; now split | discriminate Hl].
  - destruct (np.shape a); [injection Hl as <-; now split | discriminate Hl].
Qed.

Lemma paint_unsized_pos_raises_witness :
  paint (fresh_visual (Some (PyNum (SInt 3))) None None)
    = (inl TypeError, fresh_visual (Some (PyNum (SInt 3))) None None) /\
  TypeError = TypeError.
Proof.
  apply (paint_unsized_pos_raises
           (fresh_visual (Some (PyNum (SInt 3))) None None) (PyNum (SInt 3)) TypeError).
  - reflexivity.
  - reflexivity.
Defined.

(** X9: with the transform set to [None], [paint] never draws.  When there
    is something to draw it raises; when the buffer is already there it
    raises [AttributeError] at once and changes nothing. *)
Theorem paint_without_transform (st st' : state) (r : exn + unit) :
  transform (_opts (self st)) = None ->
  paint st = (r, st') ->
  (exists cs, added st st' cs /\ no_draw cs) /\
  (nothing_to_draw (pos (_opts (self st))) = inr false ->
   (exists e, r = inl e) /\
   (is_Some (_vbo (self st)) -> r = inl AttributeError /\ st' = st)).
Proof.
  intros Ht E. split.
  - apply paint_cases in E as (_ & cs & Ha & Hcases). exists cs. split; [assumption |].
    destruct Hcases
      as [(_ & _ & _ & ->) | [(_ & _ & Hnd & _) | (_ & _ & b & tr & _ & Ht' & _)]];
      [reflexivity | assumption | congruence].
  - intros Hn. split.
    + apply paint_cases in E as (_ & cs & _ & Hcases).
      destruct Hcases
        as [(_ & Hn' & _) | [(He & _) | (_ & _ & b & tr & _ & Ht' & _)]];
        [congruence | assumption | congruence].
    + intros [b Hb]. destruct st as [w v]. unfold paint in E. revert E. run.
      cbn in Ht, Hn, Hb. rewrite Hn. cbn. rewrite Hb. cbn. rewrite Ht. cbn.
      intros E. now inversion E.
Qed.

Lemma paint_without_transform_witness :
  let st := after (transform_setter None) (after paint red_line) in
  (exists cs, added st st cs /\ no_draw cs) /\
  (nothing_to_draw (pos (_opts (self st))) = inr false ->
   (exists e, @inl exn unit AttributeError = inl e) /\
   (is_Some (_vbo (self st)) -> @inl exn unit AttributeError = inl AttributeError /\ st = st)).
Proof.
  apply (paint_without_transform
           (after (transform_setter None) (after paint red_line))
           (after (transform_setter None) (after paint red_line))
           (inl AttributeError)).
  - reflexivity.
  - vm_compute. reflexivity.
Defined.

(** X10: whatever its outcome, [paint] leaves the stored options and both
    component references as they were. *)
Theorem paint_keeps_options_and_components (st : state) :
  _opts (self (after paint st)) = _opts (self st) /\
  _pos_input_component (self (after paint st)) = _pos_input_component (self st) /\
  _color_input_component (self (after paint st)) = _color_input_component (self st).
Proof.
  unfold after. destruct st as [w v]. unfold paint. run.
  destruct (nothing_to_draw (pos (_opts v))) as [e | [|]]; cbn;
    [repeat split | repeat split |].
  destruct (_vbo v) as [b |]; cbn.
  { destruct (transform (_opts v)); cbn; repeat split. }
  destruct (_build_vbo {| heap := w; self := v |}) as [[e | []] st1] eqn:E1;
    apply build_vbo_outcome in E1 as (Ho1 & _ & Hp1 & Hc1 & _); cbn in *;
    [now repeat split |].
  destruct (pos_input_component_update st1) as [[e | []] st2] eqn:E2;
    apply pos_update_outcome in E2 as (Ho2 & _ & _ & Hp2 & Hc2 & _); cbn;
    [repeat split; congruence |].
  destruct (color_input_component_update st2) as [[e | []] st3] eqn:E3;
    apply color_update_outcome in E3 as (Ho3 & _ & _ & Hp3 & Hc3 & _); cbn;
    [repeat split; congruence |].
  destruct (transform (_opts (self st3))); cbn; repeat split; congruence.
Qed.

(** ** The component updates: what they leave alone *)

(** X11: whatever its outcome, [LinePosInputComponent.update] changes
    nothing of the visual but the [local_position] hook, and nothing of the
    heap but the two class-level Functions and the variables it creates:
    options, structured array, buffer, chains, every other hook, every
    other Function object and every variable that existed are as before. *)
Theorem pos_update_frame (st : state) :
  _opts (self (pos_updated st)) = _opts (self st) /\
  _data (self (pos_updated st)) = _data (self st) /\
  _vbo (self (pos_updated st)) = _vbo (self st) /\
  chains (_program (self (pos_updated st))) = chains (_program (self st)) /\
  (forall name, name <> "local_position" ->
     hooks (_program (self (pos_updated st))) !! name
       = hooks (_program (self st)) !! name) /\
  (forall f, f <> XYInputFunc -> f <> XYZInputFunc ->
     functions (heap (pos_updated st)) !! f = functions (heap st) !! f) /\
  (forall y, y < next_id (heap st) ->
     variables (heap (pos_updated st)) !! y = variables (heap st) !! y) /\
  next_id (heap st) <= next_id (heap (pos_updated st)).
Proof.
  unfold pos_updated, after. destruct st as [w v].
  unfold LinePosInputComponent_update, vbo_getitem. run.
  repeat (split_inner; cbn).
  all: frame; repeat split; try lia.
  all: intros; rewrite ?lookup_insert_ne by (congruence || lia);
    rewrite ?lookup_alter_ne by congruence; reflexivity.
Qed.

(** X12: whatever its outcome, [LineColorInputComponent.update] changes
    nothing of the visual but the [frag_color] hook and the
    [vert_post_hook] chain, and nothing of the heap but the component's own
    two Functions and the variables it creates.  In particular it never
    touches the class-level position Functions or another component's
    Functions. *)
Theorem color_update_frame (st : state) (c : LineColorInputComponent) :
  _opts (self (color_updated c st)) = _opts (self st) /\
  _data (self (color_updated c st)) = _data (self st) /\
  _vbo (self (color_updated c st)) = _vbo (self st) /\
  (forall name, name <> "frag_color" ->
     hooks (_program (self (color_updated c st))) !! name
       = hooks (_program (self st)) !! name) /\
  (forall name, name <> "vert_post_hook" ->
     chains (_program (self (color_updated c st))) !! name
       = chains (_program (self st)) !! name) /\
  (forall f, f <> frag_func c -> f <> support_func c ->
     functions (heap (color_updated c st)) !! f = functions (heap st) !! f) /\
  (forall y, y < next_id (heap st) ->
     variables (heap (color_updated c st)) !! y = variables (heap st) !! y) /\
  next_id (heap st) <= next_id (heap (color_updated c st)).
Proof.
  unfold color_updated, after. destruct st as [w v].
  unfold LineColorInputComponent_update, vbo_getitem. run.
  unfold add_callback. cbn.
  repeat (split_inner; cbn).
  all: frame; repeat split; try lia.
  all: intros; rewrite ?lookup_insert_ne by (congruence || lia);
    rewrite ?lookup_alter_ne by congruence; reflexivity.
Qed.

(** ** The component updates: called out of turn *)

(** X13: called before any buffer was ever built, when the visual has no
    [_data] attribute yet, either component's [update] raises
    [AttributeError]; nothing is bound and nothing is created. *)
Theorem update_before_build_raises (st : state) (pc : LinePosInputComponent)
    (cc : LineColorInputComponent) :
  _data (self st) = None ->
  (exists st',
     LinePosInputComponent_update pc st = (inl AttributeError, st') /\
     self st' = self st /\
     functions (heap st') = functions (heap st) /\
     variables (heap st') = variables (heap st)) /\
  (exists st',
     LineColorInputComponent_update cc st = (inl AttributeError, st') /\
     self st' = self st /\
     functions (heap st') = functions (heap st) /\
     variables (heap st') = variables (heap st)).
Proof.
  intros Hd. destruct st as [w v]. cbn in Hd. split.
  - unfold LinePosInputComponent_update. run. rewrite Hd. cbn.
    eexists. split; [reflexivity |]. repeat split.
  - unfold LineColorInputComponent_update. run. rewrite Hd. cbn.
    eexists. split; [reflexivity |]. repeat split.
Qed.

Lemma update_before_build_raises_witness :
  (exists st',
     LinePosInputComponent_update LinePosInputComponent_new red_line
       = (inl AttributeError, st') /\
     self st' = self red_line /\
     functions (heap st') = functions (heap red_line) /\
     variables (heap st') = variables (heap red_line)) /\
  (exists st',
     LineColorInputComponent_update first_component red_line
       = (inl AttributeError, st') /\
     self st' = self red_line /\
     functions (heap st') = functions (heap red_line) /\
     variables (heap st') = variables (heap red_line)).
Proof.
  apply (update_before_build_raises red_line LinePosInputComponent_new first_component).
  reflexivity.
Defined.

(** X14: the two branches of [LinePosInputComponent.update] treat a missing
    buffer differently.  With [_vbo] at [None], the branch for trailing
    dimension 2 subscripts it and raises [TypeError] before binding
    anything; the other branch passes [_vbo] on as it is, so the update
    returns normally with [xyz_pos] bound to a [vec3] attribute on [None]
    and the XYZ Function on [local_position]. *)
Theorem pos_update_without_buffer (st : state) (c : LinePosInputComponent)
    (d : np.recarray) (shp : list nat) (k : nat) :
  _data (self st) = Some d ->
  np.getitem_shape d "pos" = inr shp ->
  np.shape_last shp = inr k ->
  _vbo (self st) = None ->
  is_Some (functions (heap st) !! XYZInputFunc) ->
  exists st',
    (k = 2 ->
     LinePosInputComponent_update c st = (inl TypeError, st') /\
     self st' = self st /\
     functions (heap st') = functions (heap st) /\
     variables (heap st') = variables (heap st)) /\
    (k <> 2 ->
     LinePosInputComponent_update c st = (inr tt, st') /\
     pos_mode (self st') = Some Vec3Mode /\
     slot_variable (heap st') XYZInputFunc "xyz_pos"
       = Some {| kind := "attribute"; gltype := "vec3"; value := Buffer None |}).
Proof.
  intros Hd Hs Hk Hv Hlive. destruct (Nat.eq_dec k 2) as [-> | Hne].
  - destruct st as [w v]. cbn in *.
    unfold LinePosInputComponent_update, vbo_getitem. run.
    rewrite Hd, Hs. cbn. rewrite Hk. cbn. rewrite Hv. cbn.
    eexists. split; [intros _ | intros H; now elim H].
    split; [reflexivity |]. repeat split.
  - eexists. split; [intros H; now elim Hne |]. intros _.
    split; [eapply pos_update_vec3; eauto |].
    split; [apply pos_mode_bound |].
    unfold slot_variable. cbn. rewrite slot_ref_bound by assumption.
    cbn. rewrite Hv. apply lookup_insert_eq.
Qed.

Lemma pos_update_without_buffer_witness :
  let st := after (set_data None None None)
              (after paint (fresh_visual (Some (PyArray pos_2x3)) None None)) in
  exists st',
    (3 = 2 ->
     LinePosInputComponent_update LinePosInputComponent_new st = (inl TypeError, st') /\
     self st' = self st /\
     functions (heap st') = functions (heap st) /\
     variables (heap st') = variables (heap st)) /\
    (3 <> 2 ->
     LinePosInputComponent_update LinePosInputComponent_new st = (inr tt, st') /\
     pos_mode (self st') = Some Vec3Mode /\
     slot_variable (heap st') XYZInputFunc "xyz_pos"
       = Some {| kind := "attribute"; gltype := "vec3"; value := Buffer None |}).
Proof.
  apply (pos_update_without_buffer
           (after (set_data None None None)
              (after paint (fresh_visual (Some (PyArray pos_2x3)) None None)))
           LinePosInputComponent_new
           {| np.ra_shape := [2];
              np.ra_fields := [{| np.f_name := "pos"; np.f_sub := 3;
                                  np.f_src := Some pos_2x3 |}] |}
           [2; 3] 3).
  - vm_compute. reflexivity.
  - reflexivity.
  - reflexivity.
  - vm_compute. reflexivity.
  - vm_compute. eexists. reflexivity.
Defined.

(** X15: [LineColorInputComponent.update] subscripts the buffer only after
    its first three statements.  With a [color] field in [_data] but [_vbo]
    at [None] it raises [TypeError], and by then the fragment Function is
    on [frag_color] with [rgba] bound to a new varying and the support
    Function has been appended to [vert_post_hook]; its own slots have not
    been bound. *)
Theorem color_update_without_buffer (st : state) (c : LineColorInputComponent)
    (d : np.recarray) (fs : list nat) :
  _data (self st) = Some d ->
  np.has_field "color" d = true ->
  _vbo (self st) = None ->
  chains (_program (self st)) !! "vert_post_hook" = Some fs ->
  is_Some (functions (heap st) !! frag_func c) ->
  support_func c <> frag_func c ->
  exists st',
    LineColorInputComponent_update c st = (inl TypeError, st') /\
    hooks (_program (self st')) !! "frag_color" = Some (BoundFunction (frag_func c)) /\
    slot_variable (heap st') (frag_func c) "rgba"
      = Some {| kind := "varying"; gltype := "vec4"; value := NoValue |} /\
    chains (_program (self st')) !! "vert_post_hook" = Some (fs ++ [support_func c]) /\
    functions (heap st') !! support_func c = functions (heap st) !! support_func c.
Proof.
  intros Hd Hf Hv Hch Hlive Hne. destruct st as [w v]. cbn in *.
  unfold LineColorInputComponent_update, vbo_getitem. run.
  rewrite Hd. cbn. rewrite Hf. cbn. unfold add_callback. cbn. rewrite Hch. cbn.
  rewrite Hv. cbn. eexists. split; [reflexivity |]. cbn.
  split; [apply lookup_insert_eq |].
  split; [now apply rgba_after_uniform |].
  split; [apply lookup_insert_eq |].
  now apply lookup_alter_ne.
Qed.

Lemma color_update_without_buffer_witness :
  let st := after (set_data None None None) (after paint per_vertex_visual) in
  exists st',
    LineColorInputComponent_update first_component st = (inl TypeError, st') /\
    hooks (_program (self st')) !! "frag_color"
      = Some (BoundFunction (frag_func first_component)) /\
    slot_variable (heap st') (frag_func first_component) "rgba"
      = Some {| kind := "varying"; gltype := "vec4"; value := NoValue |} /\
    chains (_program (self st')) !! "vert_post_hook"
      = Some ([support_func first_component] ++ [support_func first_component]) /\
    functions (heap st') !! support_func first_component
      = functions (heap st) !! support_func first_component.
Proof.
  apply (color_update_without_buffer
           (after (set_data None None None) (after paint per_vertex_visual))
           first_component data_c [support_func first_component]).
  - vm_compute. reflexivity.
  - reflexivity.
  - vm_compute. reflexivity.
  - vm_compute. reflexivity.
  - vm_compute. eexists. reflexivity.
  - discriminate.
Defined.

(** ** Growth of the vert_post_hook chain *)

(** X16: in per-vertex mode every [LineColorInputComponent.update] appends
    the support Function to [vert_post_hook] once more and creates two new
    variable objects: after [k] updates on the same buffer the chain is the
    old one followed by [k] copies of the support Function. *)
Theorem per_vertex_updates_accumulate (k : nat) (c : LineColorInputComponent)
    (d : np.recarray) (b : gloo.VertexBuffer) :
  forall (st : state) (fs : list nat),
    _data (self st) = Some d ->
    np.has_field "color" d = true ->
    _vbo (self st) = Some b ->
    np.has_field "color" (gloo.vb_data b) = true ->
    is_Some (functions (heap st) !! frag_func c) ->
    chains (_program (self st)) !! "vert_post_hook" = Some fs ->
    exists st',
      times k (LineColorInputComponent_update c) st = (inr tt, st') /\
      chains (_program (self st')) !! "vert_post_hook"
        = Some (fs ++ repeat (support_func c) k) /\
      next_id (heap st') = next_id (heap st) + 2 * k.
Proof.
  induction k as [| k IH]; intros st fs Hd Hf Hb Hbf Hlive Hch.
  - exists st. cbn. rewrite app_nil_r, Nat.add_0_r. now repeat split.
  - pose proof (color_update_vertex st c d b fs Hd Hf Hb Hbf Hlive Hch) as E.
    match type of E with _ = (_, ?s) => set (st1 := s) in * end.
    destruct (IH st1 (fs ++ [support_func c])) as (st' & E' & Hc' & Hn'); cbn;
      try assumption.
    + now rewrite !lookup_alter_is_Some.
    + apply lookup_insert_eq.
    + exists st'. split; [| split].
      * cbn [times]. rewrite (bind_ok _ _ _ _ _ E). exact E'.
      * rewrite Hc', <- app_assoc. reflexivity.
      * rewrite Hn'. cbn. lia.
Qed.

Lemma per_vertex_updates_accumulate_witness :
  exists st',
    times 3 (LineColorInputComponent_update first_component)
      (after _build_vbo per_vertex_visual) = (inr tt, st') /\
    chains (_program (self st')) !! "vert_post_hook"
      = Some ([] ++ repeat (support_func first_component) 3) /\
    next_id (heap st') = next_id (heap (after _build_vbo per_vertex_visual)) + 2 * 3.
Proof.
  apply (per_vertex_updates_accumulate 3 first_component data_c buffer_c
           (after _build_vbo per_vertex_visual) []).
  - vm_compute. reflexivity.
  - reflexivity.
  - vm_compute. reflexivity.
  - reflexivity.
  - vm_compute. eexists. reflexivity.
  - vm_compute. reflexivity.
Defined.

(** X17: on a visual whose two chains are declared, as the constructor
    leaves them, [add_vertex_callback] appends its Function at the end of
    [vert_post_hook] and [add_fragment_callback] at the end of
    [frag_post_hook]; each leaves the other chain, the hooks, the options
    and the buffer alone, so the next [paint] needs no rebuild, and emits
    one update event. *)
Theorem add_callback_appends (st : state) (f : nat) (vs fs : list nat) :
  chains (_program (self st)) !! "vert_post_hook" = Some vs ->
  chains (_program (self st)) !! "frag_post_hook" = Some fs ->
  (exists st',
     add_vertex_callback f st = (inr tt, st') /\
     chains (_program (self st')) !! "vert_post_hook" = Some (vs ++ [f]) /\
     chains (_program (self st')) !! "frag_post_hook" = Some fs /\
     hooks (_program (self st')) = hooks (_program (self st)) /\
     _opts (self st') = _opts (self st) /\
     _vbo (self st') = _vbo (self st) /\
     added st st' [EventsUpdate]) /\
  (exists st',
     add_fragment_callback f st = (inr tt, st') /\
     chains (_program (self st')) !! "frag_post_hook" = Some (fs ++ [f]) /\
     chains (_program (self st')) !! "vert_post_hook" = Some vs /\
     hooks (_program (self st')) = hooks (_program (self st)) /\
     _opts (self st') = _opts (self st) /\
     _vbo (self st') = _vbo (self st) /\
     added st st' [EventsUpdate]).
Proof.
  intros Hv Hf. destruct st as [w v]. cbn in *. split.
  - unfold add_vertex_callback. run. unfold add_callback. rewrite Hv. cbn.
    eexists. split; [reflexivity |]. cbn.
    split; [apply lookup_insert_eq |].
    split; [now rewrite lookup_insert_ne by discriminate |]. repeat split.
  - unfold add_fragment_callback. run. unfold add_callback. rewrite Hf. cbn.
    eexists. split; [reflexivity |]. cbn.
    split; [apply lookup_insert_eq |].
    split; [now rewrite lookup_insert_ne by discriminate |]. repeat split.
Qed.

Lemma add_callback_appends_witness :
  (exists st',
     add_vertex_callback 9 (after paint per_vertex_visual) = (inr tt, st') /\
     chains (_program (self st')) !! "vert_post_hook"
       = Some ([support_func first_component] ++ [9]) /\
     chains (_program (self st')) !! "frag_post_hook" = Some [] /\
     hooks (_program (self st')) = hooks (_program (self (after paint per_vertex_visual))) /\
     _opts (self st') = _opts (self (after paint per_vertex_visual)) /\
     _vbo (self st') = _vbo (self (after paint per_vertex_visual)) /\
     added (after paint per_vertex_visual) st' [EventsUpdate]) /\
  (exists st',
     add_fragment_callback 9 (after paint per_vertex_visual) = (inr tt, st') /\
     chains (_program (self st')) !! "frag_post_hook" = Some ([] ++ [9]) /\
     chains (_program (self st')) !! "vert_post_hook"
       = Some [support_func first_component] /\
     hooks (_program (self st')) = hooks (_program (self (after paint per_vertex_visual))) /\
     _opts (self st') = _opts (self (after paint per_vertex_visual)) /\
     _vbo (self st') = _vbo (self (after paint per_vertex_visual)) /\
     added (after paint per_vertex_visual) st' [EventsUpdate]).
Proof.
  apply (add_callback_appends (after paint per_vertex_visual) 9
           [support_func first_component] []).
  - vm_compute. reflexivity.
  - vm_compute. reflexivity.
Defined.

(** ** Witnesses of the reachability and first-paint lemmas *)

Lemma reachable_consistent_witness :
  consistent (after paint (after (set_data None (Some red) None) (after paint red_line))).
Proof.
  apply reachable_consistent.
  apply (reach_paint (after (set_data None (Some red) None) (after paint red_line))
           (inr tt)); [| vm_compute; reflexivity].
  apply (reach_set_data (after paint red_line) None (Some red) None (inr tt));
    [| vm_compute; reflexivity].
  apply (reach_paint red_line (inr tt)); [| vm_compute; reflexivity].
  apply (reach_new imported (Some (PyArray pos_3x2)) (Some red) (Some (PyNum (SInt 2)))
           (inr tt)).
  vm_compute. reflexivity.
Defined.

Lemma first_paint_draws_witness :
  exists st' b,
    paint two_colored_line = (inr tt, st') /\
    _vbo (self st') = Some b /\
    data_of (_opts (self two_colored_line)) (gloo.vb_data b) /\
    pos_mode (self st') = Some (if 3 =? 2 then Vec2Mode else Vec3Mode) /\
    local_position_attribute (heap st') (self st')
      = Some {| kind := "attribute";
                gltype := if 3 =? 2 then "vec2" else "vec3";
                value := if 3 =? 2 then BufferField b "pos" else Buffer (Some b) |} /\
    color_mode st' first_component
      = Some (if color_is_array (color (_opts (self two_colored_line)))
              then PerVertexColor else UniformColor).
Proof.
  apply (first_paint_draws two_colored_line pos_2x3 3 LinePosInputComponent_new
           first_component NullTransform []).
  - reflexivity.
  - reflexivity.
  - reflexivity.
  - lia.
  - reflexivity.
  - reflexivity.
  - reflexivity.
  - reflexivity.
  - reflexivity.
  - reflexivity.
  - vm_compute. eexists. reflexivity.
  - vm_compute. eexists. reflexivity.
  - vm_compute. eexists. reflexivity.
  - vm_compute. reflexivity.
Defined.

(** ** Modes do not interfere; only arrays get drawn *)

(** X18: [LinePosInputComponent.update] rebinds slots of the one Function
    it selects.  On trailing dimension 2 the XYZ Function object is left as
    it was, on any other the XY Function: a visual in one mode never
    disturbs the bindings read by visuals in the other mode, and after a
    change of mode the Function of the former mode keeps its old
    bindings. *)
Theorem pos_update_touches_one_function (st : state) (c : LinePosInputComponent)
    (d : np.recarray) (shp : list nat) (k : nat) :
  _data (self st) = Some d ->
  np.getitem_shape d "pos" = inr shp ->
  np.shape_last shp = inr k ->
  (k = 2 -> exists b, _vbo (self st) = Some b /\ np.has_field "pos" (gloo.vb_data b) = true) ->
  exists st',
    LinePosInputComponent_update c st = (inr tt, st') /\
    (k = 2 ->
     functions (heap st') !! XYZInputFunc = functions (heap st) !! XYZInputFunc) /\
    (k <> 2 ->
     functions (heap st') !! XYInputFunc = functions (heap st) !! XYInputFunc).
Proof.
  intros Hd Hs Hk Hb. destruct (Nat.eq_dec k 2) as [-> | Hne].
  - destruct (Hb eq_refl) as (b & Hv & Hf).
    eexists. split; [eapply pos_update_vec2; eauto |]. cbn.
    split; [intros _ | intros H; now elim H].
    now rewrite !lookup_alter_ne by discriminate.
  - eexists. split; [eapply pos_update_vec3; eauto |]. cbn.
    split; [intros H; now elim Hne | intros _].
    now rewrite lookup_alter_ne by discriminate.
Qed.

Lemma pos_update_touches_one_function_witness :
  let st := after _build_vbo
              (second_visual visual_a (Some (PyArray pos_2x3)) None None) in
  exists st',
    LinePosInputComponent_update LinePosInputComponent_new st = (inr tt, st') /\
    (3 = 2 ->
     functions (heap st') !! XYZInputFunc = functions (heap st) !! XYZInputFunc) /\
    (3 <> 2 ->
     functions (heap st') !! XYInputFunc = functions (heap st) !! XYInputFunc).
Proof.
  apply (pos_update_touches_one_function
           (after _build_vbo
              (second_visual visual_a (Some (PyArray pos_2x3)) None None))
           LinePosInputComponent_new
           {| np.ra_shape := [2];
              np.ra_fields := [{| np.f_name := "pos"; np.f_sub := 3;
                                  np.f_src := Some pos_2x3 |}] |}
           [2; 3] 3).
  - vm_compute. reflexivity.
  - reflexivity.
  - reflexivity.
  - intros H. discriminate H.
Defined.

(** X19: under the buffer invariant, which every reachable state has, a
    visual draws only a position that is an array with at least one axis
    and at least one row: when [paint] issues a draw, the stored [pos] is
    such an array.  A tuple, a number or [None] is never drawn. *)
Theorem only_arrays_are_drawn (st st' : state) (r : exn + unit)
    (cs : list call) (prim : string) (pr : ModularProgram) :
  consistent st ->
  paint st = (r, st') ->
  added st st' cs ->
  In (Draw prim pr) cs ->
  exists a n rest,
    pos (_opts (self st)) = Some (PyArray a) /\
    np.shape a = S n :: rest.
Proof.
  intros Hc E Ha Hin.
  pose proof (consistent_paint _ _ _ Hc E) as Hc'.
  apply paint_cases in E as (Ho & cs0 & Ha0 & Hcases).
  unfold added in Ha, Ha0. rewrite Ha in Ha0. apply app_inv_head in Ha0. subst cs0.
  destruct Hcases
    as [(_ & _ & _ & ->) | [(_ & _ & Hnd & _) | (_ & Hn & b & tr & Hv & _)]].
  - destruct Hin.
  - now apply no_draw_In in Hin.
  - destruct (Hc' _ Hv) as (a & Hp & _). rewrite Ho in Hp.
    rewrite Hp in Hn. unfold nothing_to_draw in Hn. cbn in Hn.
    destruct (np.shape a) as [| n rest] eqn:Hs; [discriminate Hn |].
    destruct n as [| n]; [discriminate Hn |].
    now exists a, n, rest.
Qed.

Lemma only_arrays_are_drawn_witness :
  exists a n rest,
    pos (_opts (self red_line)) = Some (PyArray a) /\
    np.shape a = S n :: rest.
Proof.
  apply (only_arrays_are_drawn red_line (after paint red_line) (inr tt)
           [BuildVbo; PosUpdate; ColorUpdate; GlLineWidth (PyNum (SInt 2));
            Draw "LINE_STRIP" (_program (self (after paint red_line)))]
           "LINE_STRIP" (_program (self (after paint red_line)))).
  - intros b Hb. vm_compute in Hb. discriminate Hb.
  - vm_compute. reflexivity.
  - vm_compute. reflexivity.
  - cbn [In]. do 4 right. left. reflexivity.
Defined.
